(** * Order creation, delivery status and payment settlement

    A shallow embedding of the request handlers of the food-delivery
    backend (routers/orders.py, routers/payments.py, routers/menu_items.py),
    of the request and response schemas they use (models/schemas.py), of the
    ORM tables (models/db_models.py) and of the per-request session
    (core/db.py, [get_db]).

    Modelling conventions.
    - Python [int] is [Z]; [str] is [string]; [datetime] is a [Z] clock
      reading supplied to each request.
    - A table is the list of its rows in insertion order.  A primary key is
      drawn from the table's sequence when the row is flushed; a sequence is
      not rewound when a transaction is abandoned.
    - A session holds the committed tables, the tables as the open
      transaction sees them, and the queue of objects and attribute writes
      that were staged but not flushed (the session is created with
      [autoflush=False]).  [db.commit()] flushes and publishes; [db.close()]
      drops whatever was not committed.
    - A handler is a state-and-exception computation over the session.
    - The store is PostgreSQL behind SQLAlchemy's psycopg dialect.  An
      [Integer] column or bound key holds a 32-bit integer, a [String(n)]
      column at most [n] characters (trailing spaces beyond [n] are cut), no
      text holds a NUL character, and a key past the 32-bit range cannot be
      drawn; a statement that breaks one of these raises [DataError], the
      transaction is rolled back, and the refused statement draws no key.  A
      character of a string is one [ascii].
    - A flush writes the changes to orders before the new order items and
      payments, as the unit of work orders a table before the tables that
      refer to it.
    - How large an [OFFSET] the store takes depends on how the dialect binds
      the parameter (as [INTEGER] or as [BIGINT]); it is left as the
      parameter [max_offset] of the listing query, and every property holds
      for each value of it. *)

From Stdlib Require Import ZArith List Ascii String Bool Lia DecimalString.
From Stdlib Require Import Sorting.Sorted Sorting.Permutation.
Import ListNotations.

Local Open Scope string_scope.
Local Open Scope Z_scope.
Local Open Scope list_scope.

(** ** ORM models (models/db_models.py) *)

Module Restaurant.
Record t : Type := mk
  { id : Z;
    name : string;
    description : option string;
    is_active : bool;
    created_at : Z }.
End Restaurant.

Module MenuItem.
Record t : Type := mk
  { id : Z;
    restaurant_id : Z;
    name : string;
    description : option string;
    price_cents : Z;
    is_available : bool;
    created_at : Z }.
End MenuItem.

Module Order.
Record t : Type := mk
  { id : Z;
    restaurant_id : Z;
    status : string;
    total_cents : Z;
    created_at : Z }.

Definition with_status (s : string) (o : t) : t :=
  mk (id o) (restaurant_id o) s (total_cents o) (created_at o).

Definition with_total_cents (n : Z) (o : t) : t :=
  mk (id o) (restaurant_id o) (status o) n (created_at o).
End Order.

Module OrderItem.
Record t : Type := mk
  { id : Z;
    order_id : Z;
    menu_item_id : Z;
    quantity : Z;
    price_cents_each : Z }.
End OrderItem.

Module Payment.
Record t : Type := mk
  { id : Z;
    order_id : Z;
    provider : string;
    amount_cents : Z;
    created_at : Z }.
End Payment.

(** ** Request and response schemas (models/schemas.py) *)

Module RestaurantCreate.
Record t : Type := mk
  { name : string;
    description : option string;
    is_active : bool }.

(** No field of the schema carries a bound. *)
Definition validate (p : t) : bool := true.
End RestaurantCreate.

Module RestaurantRead.
Record t : Type := mk
  { name : string;
    description : option string;
    is_active : bool;
    id : Z;
    created_at : Z }.
End RestaurantRead.

Module MenuItemCreate.
Record t : Type := mk
  { restaurant_id : Z;
    name : string;
    description : option string;
    price_cents : Z;
    is_available : bool }.

(** [price_cents: int = Field(..., ge=0)] *)
Definition validate (p : t) : bool := 0 <=? price_cents p.
End MenuItemCreate.

Module MenuItemRead.
Record t : Type := mk
  { restaurant_id : Z;
    name : string;
    description : option string;
    price_cents : Z;
    is_available : bool;
    id : Z;
    created_at : Z }.
End MenuItemRead.

Module OrderItemCreate.
Record t : Type := mk
  { menu_item_id : Z;
    quantity : Z }.

(** [quantity: int = Field(..., ge=1)] *)
Definition validate (l : t) : bool := 1 <=? quantity l.
End OrderItemCreate.

Module OrderCreate.
Record t : Type := mk
  { restaurant_id : Z;
    items : list OrderItemCreate.t }.

(** [items: List[OrderItemCreate] = Field(..., min_length=1)], every
    element validated by its own schema. *)
Definition validate (p : t) : bool :=
  (1 <=? Z.of_nat (List.length (items p))) && forallb OrderItemCreate.validate (items p).
End OrderCreate.

Module OrderItemRead.
Record t : Type := mk
  { id : Z;
    menu_item_id : Z;
    quantity : Z;
    price_cents_each : Z }.

(** [quantity ge=1], [price_cents_each ge=0]. *)
Definition validate (r : t) : bool :=
  (1 <=? quantity r) && (0 <=? price_cents_each r).
End OrderItemRead.

Module OrderRead.
Record t : Type := mk
  { id : Z;
    restaurant_id : Z;
    status : string;
    total_cents : Z;
    created_at : Z;
    items : list OrderItemRead.t }.

(** [total_cents ge=0]. *)
Definition validate (r : t) : bool := 0 <=? total_cents r.
End OrderRead.

Module DeliveryUpdate.
Record t : Type := mk { status : string }.
End DeliveryUpdate.

Module PaymentCreate.
Record t : Type := mk
  { order_id : Z;
    amount_cents : Z;
    provider : string }.

(** [amount_cents: int = Field(..., ge=0)] *)
Definition validate (p : t) : bool := 0 <=? amount_cents p.

(** [provider: str = Field(default="mock")] *)
Definition default_provider : string := "mock".
End PaymentCreate.

(** The body of the payment response, a plain [dict]. *)
Module PaymentResult.
Record t : Type := mk
  { status : string;
    order_id : Z;
    order_status : string }.
End PaymentResult.

(** ** The store *)

Record Tables : Type := mkTables
  { restaurants : list Restaurant.t;
    menu_items : list MenuItem.t;
    orders : list Order.t;
    order_items : list OrderItem.t;
    payments : list Payment.t }.

Record Sequences : Type := mkSequences
  { restaurants_id_seq : Z;
    menu_items_id_seq : Z;
    orders_id_seq : Z;
    order_items_id_seq : Z;
    payments_id_seq : Z }.

Record Database : Type := mkDatabase
  { db_tables : Tables;
    db_seqs : Sequences }.

Definition empty_tables : Tables := mkTables [] [] [] [] [].
Definition initial_sequences : Sequences := mkSequences 1 1 1 1 1.
Definition empty_database : Database := mkDatabase empty_tables initial_sequences.

(** ** The session (core/db.py) *)

(** What [db.add] and attribute assignment leave for the next flush. *)
Inductive Pending : Type :=
| NewOrderItem (order_id menu_item_id quantity price_cents_each : Z)
| NewPayment (order_id : Z) (provider : string) (amount_cents : Z)
| SetOrderTotalCents (order_id total_cents : Z)
| SetOrderStatus (order_id : Z) (status : string).

Record Session : Type := mkSession
  { committed : Tables;
    working : Tables;
    seqs : Sequences;
    pending : list Pending;
    utcnow : Z }.

Inductive Exception : Type :=
| HTTPException (status_code : Z) (detail : string)
| RequestValidationError
| ValidationError
| AssertionError
| InvalidRequestError
| ObjectDeletedError
| DataError.

Inductive Result (A : Type) : Type :=
| Ok (a : A)
| Raise (e : Exception).
Arguments Ok {A} a.
Arguments Raise {A} e.

Definition Handler (A : Type) : Type := Session -> Result A * Session.

Definition ret {A} (a : A) : Handler A := fun s => (Ok a, s).

Definition raise {A} (e : Exception) : Handler A := fun s => (Raise e, s).

Definition bind {A B} (m : Handler A) (k : A -> Handler B) : Handler B :=
  fun s =>
    match m s with
    | (Ok a, s') => k a s'
    | (Raise e, s') => (Raise e, s')
    end.

Notation "x <- m ;; k" := (bind m (fun x => k))
  (at level 61, m at next level, right associativity).
Notation "m ;; k" := (bind m (fun _ => k))
  (at level 61, right associativity).

Definition lift {A} (r : Result A) : Handler A := fun s => (r, s).

(** *** What the store accepts *)

Definition INT4_MIN : Z := -2147483648.
Definition INT4_MAX : Z := 2147483647.

(** A value an [Integer] column or a bound [INTEGER] parameter can hold. *)
Definition int4 (z : Z) : bool := (INT4_MIN <=? z) && (z <=? INT4_MAX).

(** A text the store can hold: no NUL character. *)
Fixpoint text_ok (s : string) : bool :=
  match s with
  | EmptyString => true
  | String c rest => negb (Ascii.eqb c Ascii.zero) && text_ok rest
  end.

Fixpoint all_spaces (s : string) : bool :=
  match s with
  | EmptyString => true
  | String c rest => Ascii.eqb c " "%char && all_spaces rest
  end.

(** Assignment to a [String(n)] column: a longer value is an error unless
    what exceeds [n] characters is all spaces, which are cut. *)
Definition varchar (n : nat) (s : string) : Result string :=
  if negb (text_ok s) then Raise DataError
  else if (String.length s <=? n)%nat then Ok s
  else if all_spaces (substring n (String.length s - n) s) then Ok (substring 0 n s)
  else Raise DataError.

(** Assignment to a nullable [Text] column. *)
Definition text (s : option string) : Result (option string) :=
  match s with
  | None => Ok None
  | Some x => if text_ok x then Ok (Some x) else Raise DataError
  end.

(** *** Table operations *)

Definition set_orders (f : list Order.t -> list Order.t) (t : Tables) : Tables :=
  mkTables (restaurants t) (menu_items t) (f (orders t)) (order_items t) (payments t).

Definition set_order_items (f : list OrderItem.t -> list OrderItem.t) (t : Tables) : Tables :=
  mkTables (restaurants t) (menu_items t) (orders t) (f (order_items t)) (payments t).

Definition set_payments (f : list Payment.t -> list Payment.t) (t : Tables) : Tables :=
  mkTables (restaurants t) (menu_items t) (orders t) (order_items t) (f (payments t)).

Definition set_restaurants (f : list Restaurant.t -> list Restaurant.t) (t : Tables) : Tables :=
  mkTables (f (restaurants t)) (menu_items t) (orders t) (order_items t) (payments t).

Definition set_menu_items (f : list MenuItem.t -> list MenuItem.t) (t : Tables) : Tables :=
  mkTables (restaurants t) (f (menu_items t)) (orders t) (order_items t) (payments t).

(** [UPDATE orders SET ... WHERE orders.id = :id] *)
Definition update_order (id : Z) (f : Order.t -> Order.t) (rows : list Order.t) : list Order.t :=
  map (fun o => if Order.id o =? id then f o else o) rows.

Definition next_order_id (q : Sequences) : Sequences :=
  mkSequences (restaurants_id_seq q) (menu_items_id_seq q) (orders_id_seq q + 1)
              (order_items_id_seq q) (payments_id_seq q).

Definition next_order_item_id (q : Sequences) : Sequences :=
  mkSequences (restaurants_id_seq q) (menu_items_id_seq q) (orders_id_seq q)
              (order_items_id_seq q + 1) (payments_id_seq q).

Definition next_payment_id (q : Sequences) : Sequences :=
  mkSequences (restaurants_id_seq q) (menu_items_id_seq q) (orders_id_seq q)
              (order_items_id_seq q) (payments_id_seq q + 1).

Definition next_restaurant_id (q : Sequences) : Sequences :=
  mkSequences (restaurants_id_seq q + 1) (menu_items_id_seq q) (orders_id_seq q)
              (order_items_id_seq q) (payments_id_seq q).

Definition next_menu_item_id (q : Sequences) : Sequences :=
  mkSequences (restaurants_id_seq q) (menu_items_id_seq q + 1) (orders_id_seq q)
              (order_items_id_seq q) (payments_id_seq q).

(** One staged change written to the open transaction, or the store's
    refusal of it. *)
Definition flush_one (now : Z) (p : Pending) (tq : Tables * Sequences)
  : Result (Tables * Sequences) :=
  let (t, q) := tq in
  match p with
  | NewOrderItem oid mid qty price =>
      if int4 (order_items_id_seq q) && int4 oid && int4 mid && int4 qty && int4 price
      then Ok (set_order_items
                 (fun rows => rows ++ [OrderItem.mk (order_items_id_seq q) oid mid qty price]) t,
               next_order_item_id q)
      else Raise DataError
  | NewPayment oid prov amount =>
      if int4 (payments_id_seq q) && int4 oid && int4 amount
      then match varchar 40 prov with
           | Ok stored =>
               Ok (set_payments
                     (fun rows => rows ++ [Payment.mk (payments_id_seq q) oid stored amount now])
                     t,
                   next_payment_id q)
           | Raise e => Raise e
           end
      else Raise DataError
  | SetOrderTotalCents oid total =>
      if int4 oid && int4 total
      then Ok (set_orders (update_order oid (Order.with_total_cents total)) t, q)
      else Raise DataError
  | SetOrderStatus oid st =>
      if int4 oid
      then match varchar 40 st with
           | Ok stored => Ok (set_orders (update_order oid (Order.with_status stored)) t, q)
           | Raise e => Raise e
           end
      else Raise DataError
  end.

(** The changes are written one after the other, up to the first one the
    store refuses. *)
Fixpoint flush_all (now : Z) (ps : list Pending) (tq : Tables * Sequences)
  : option Exception * (Tables * Sequences) :=
  match ps with
  | [] => (None, tq)
  | p :: ps' =>
      match flush_one now p tq with
      | Ok tq' => flush_all now ps' tq'
      | Raise e => (Some e, tq)
      end
  end.

(** The unit of work writes a parent table before the tables that refer
    to it ([Order.items], [Order.payments]): the changes to orders first,
    then the new order items and payments, each kind in the order it was
    staged. *)
Definition is_order_change (p : Pending) : bool :=
  match p with
  | SetOrderTotalCents _ _ | SetOrderStatus _ _ => true
  | NewOrderItem _ _ _ _ | NewPayment _ _ _ => false
  end.

Definition unit_of_work (ps : list Pending) : list Pending :=
  filter is_order_change ps ++ filter (fun p => negb (is_order_change p)) ps.

(** The transaction is abandoned; the keys drawn so far stay drawn. *)
Definition rollback (s : Session) : Session :=
  mkSession (committed s) (committed s) (seqs s) [] (utcnow s).

(** A flush that fails rolls the transaction back.  The new rows of a
    table go to the store in one [INSERT], and a statement the store
    refuses draws no key: the sequences are left as the flush found them. *)
Definition flush_session (s : Session) : option Exception * Session :=
  match flush_all (utcnow s) (unit_of_work (pending s)) (working s, seqs s) with
  | (None, (t, q)) => (None, mkSession (committed s) t q [] (utcnow s))
  | (Some e, _) => (Some e, rollback s)
  end.

(** *** Session operations *)

(** [db.add(obj)], and an attribute assignment on a loaded object. *)
Definition db_add (p : Pending) : Handler unit :=
  fun s => (Ok tt, mkSession (committed s) (working s) (seqs s) (pending s ++ [p]) (utcnow s)).

Definition db_flush : Handler unit :=
  fun s =>
    match flush_session s with
    | (None, s') => (Ok tt, s')
    | (Some e, s') => (Raise e, s')
    end.

(** [db.commit()]: flush, then publish the transaction. *)
Definition db_commit : Handler unit :=
  fun s =>
    match flush_session s with
    | (None, s') => (Ok tt, mkSession (working s') (working s') (seqs s') [] (utcnow s'))
    | (Some e, s') => (Raise e, s')
    end.

(** [db.add(order); db.flush()], returning the key the flush gave the
    new order ([order.id]). *)
Definition db_add_order_flush (restaurant_id : Z) (status : string) (total_cents : Z)
  : Handler Z :=
  fun s =>
    match flush_session s with
    | (Some e, s') => (Raise e, s')
    | (None, s') =>
        let id := orders_id_seq (seqs s') in
        if int4 id && int4 restaurant_id && int4 total_cents
        then match varchar 40 status with
             | Ok stored =>
                 let row := Order.mk id restaurant_id stored total_cents (utcnow s') in
                 (Ok id,
                  mkSession (committed s')
                    (set_orders (fun rows => rows ++ [row]) (working s'))
                    (next_order_id (seqs s')) [] (utcnow s'))
             | Raise e => (Raise e, rollback s')
             end
        else (Raise DataError, rollback s')
    end.

(** [db.add(item)] followed by the flush that opens [db.commit()],
    returning the key given to the new menu item. *)
Definition db_add_menu_item_flush (p : MenuItemCreate.t) : Handler Z :=
  fun s =>
    match flush_session s with
    | (Some e, s') => (Raise e, s')
    | (None, s') =>
        let id := menu_items_id_seq (seqs s') in
        if int4 id && int4 (MenuItemCreate.restaurant_id p) && int4 (MenuItemCreate.price_cents p)
        then match varchar 200 (MenuItemCreate.name p), text (MenuItemCreate.description p) with
             | Ok name, Ok description =>
                 let row := MenuItem.mk id (MenuItemCreate.restaurant_id p) name description
                              (MenuItemCreate.price_cents p) (MenuItemCreate.is_available p)
                              (utcnow s') in
                 (Ok id,
                  mkSession (committed s')
                    (set_menu_items (fun rows => rows ++ [row]) (working s'))
                    (next_menu_item_id (seqs s')) [] (utcnow s'))
             | _, _ => (Raise DataError, rollback s')
             end
        else (Raise DataError, rollback s')
    end.

(** [db.add(restaurant)] followed by the flush that opens [db.commit()],
    returning the key given to the new restaurant. *)
Definition db_add_restaurant_flush (p : RestaurantCreate.t) : Handler Z :=
  fun s =>
    match flush_session s with
    | (Some e, s') => (Raise e, s')
    | (None, s') =>
        let id := restaurants_id_seq (seqs s') in
        if int4 id
        then match varchar 200 (RestaurantCreate.name p),
                   text (RestaurantCreate.description p) with
             | Ok name, Ok description =>
                 let row := Restaurant.mk id name description (RestaurantCreate.is_active p)
                              (utcnow s') in
                 (Ok id,
                  mkSession (committed s')
                    (set_restaurants (fun rows => rows ++ [row]) (working s'))
                    (next_restaurant_id (seqs s')) [] (utcnow s'))
             | _, _ => (Raise DataError, rollback s')
             end
        else (Raise DataError, rollback s')
    end.

(** [db.get(db_models.Restaurant, id)]: the key is bound as an [INTEGER]. *)
Definition db_get_restaurant (id : Z) : Handler (option Restaurant.t) :=
  fun s =>
    if int4 id
    then (Ok (find (fun r => Restaurant.id r =? id) (restaurants (working s))), s)
    else (Raise DataError, s).

(** [db.get(db_models.MenuItem, id)] *)
Definition db_get_menu_item (id : Z) : Handler (option MenuItem.t) :=
  fun s =>
    if int4 id
    then (Ok (find (fun m => MenuItem.id m =? id) (menu_items (working s))), s)
    else (Raise DataError, s).

(** An order as the ORM hands it out: the row and its [items]
    relationship, the order_items rows that point at it. *)
Definition LoadedOrder : Type := (Order.t * list OrderItem.t)%type.

Definition load_items (t : Tables) (o : Order.t) : LoadedOrder :=
  (o, filter (fun oi => OrderItem.order_id oi =? Order.id o) (order_items t)).

(** [select(Order).where(Order.id == id).options(selectinload(Order.items))],
    then [.scalars().first()]. *)
Definition select_order_first (id : Z) : Handler (option LoadedOrder) :=
  fun s =>
    if int4 id
    then (Ok (option_map (load_items (working s))
                (find (fun o => Order.id o =? id) (orders (working s)))), s)
    else (Raise DataError, s).

(** [db.refresh(order)] *)
Definition db_refresh_order (id : Z) : Handler LoadedOrder :=
  fun s =>
    if int4 id
    then match find (fun o => Order.id o =? id) (orders (working s)) with
         | Some o => (Ok (load_items (working s) o), s)
         | None => (Raise InvalidRequestError, s)
         end
    else (Raise DataError, s).

(** Reading an attribute of [order] after [db.commit()] expired it
    loads the row again. *)
Definition load_expired_order (id : Z) : Handler Order.t :=
  fun s =>
    if int4 id
    then match find (fun o => Order.id o =? id) (orders (working s)) with
         | Some o => (Ok o, s)
         | None => (Raise ObjectDeletedError, s)
         end
    else (Raise DataError, s).

(** [db.refresh(restaurant)] *)
Definition db_refresh_restaurant (id : Z) : Handler Restaurant.t :=
  fun s =>
    if int4 id
    then match find (fun r => Restaurant.id r =? id) (restaurants (working s)) with
         | Some r => (Ok r, s)
         | None => (Raise InvalidRequestError, s)
         end
    else (Raise DataError, s).

(** [db.refresh(item)] *)
Definition db_refresh_menu_item (id : Z) : Handler MenuItem.t :=
  fun s =>
    if int4 id
    then match find (fun m => MenuItem.id m =? id) (menu_items (working s)) with
         | Some m => (Ok m, s)
         | None => (Raise InvalidRequestError, s)
         end
    else (Raise DataError, s).

(** [ORDER BY orders.id DESC] *)
Fixpoint insert_by_id_desc (o : Order.t) (rows : list Order.t) : list Order.t :=
  match rows with
  | [] => [o]
  | x :: rest =>
      if Order.id x <=? Order.id o then o :: rows
      else x :: insert_by_id_desc o rest
  end.

Fixpoint order_by_id_desc (rows : list Order.t) : list Order.t :=
  match rows with
  | [] => []
  | o :: rest => insert_by_id_desc o (order_by_id_desc rest)
  end.

Definition where_status (status : option string) (rows : list Order.t) : list Order.t :=
  match status with
  | None => rows
  | Some s => filter (fun o => String.eqb (Order.status o) s) rows
  end.

(** What the store accepts as the parameters of the listing query: a
    filter text without NUL, a [LIMIT] that is a non-negative 32-bit
    integer, an [OFFSET] that is non-negative and at most [max_offset]. *)
Definition listing_accepted (max_offset : Z) (status : option string) (limit offset : Z)
  : bool :=
  match status with
  | None => true
  | Some s => text_ok s
  end && (0 <=? limit) && int4 limit && (0 <=? offset) && (offset <=? max_offset).

(** The statement of [list_orders]: [WHERE], [ORDER BY], [OFFSET],
    [LIMIT], then [.scalars().all()] with the items loaded. *)
Definition select_orders_all (max_offset : Z) (status : option string) (limit offset : Z)
  : Handler (list LoadedOrder) :=
  fun s =>
    if listing_accepted max_offset status limit offset
    then (Ok (map (load_items (working s))
                (firstn (Z.to_nat limit)
                   (skipn (Z.to_nat offset)
                      (order_by_id_desc (where_status status (orders (working s))))))), s)
    else (Raise DataError, s).

(** *** One session per request ([get_db]) *)

Definition open_session (now : Z) (db : Database) : Session :=
  mkSession (db_tables db) (db_tables db) (db_seqs db) [] now.

(** [db.close()]: what was not committed is gone. *)
Definition close_session (s : Session) : Database :=
  mkDatabase (committed s) (seqs s).

Definition get_db {A} (now : Z) (handler : Handler A) (db : Database) : Result A * Database :=
  let (r, s) := handler (open_session now db) in
  (r, close_session s).

(** Request bodies and query parameters are validated against their
    schema before the handler runs. *)
Definition Body {P A} (validate : P -> bool) (handler : P -> Handler A) (payload : P)
  : Handler A :=
  if validate payload then handler payload else raise RequestValidationError.

Definition Query (default : Z) (ok : Z -> bool) (v : option Z) : Result Z :=
  match v with
  | None => Ok default
  | Some x => if ok x then Ok x else Raise RequestValidationError
  end.

(** ** routers/orders.py *)

Definition _VALID_STATUSES : list string :=
  ["created"; "paid"; "preparing"; "out_for_delivery"; "delivered"; "cancelled"].

Definition is_valid_status (s : string) : bool :=
  existsb (String.eqb s) _VALID_STATUSES.

Fixpoint traverse {A B} (f : A -> Result B) (l : list A) : Result (list B) :=
  match l with
  | [] => Ok []
  | x :: rest =>
      match f x with
      | Raise e => Raise e
      | Ok y =>
          match traverse f rest with
          | Raise e => Raise e
          | Ok ys => Ok (y :: ys)
          end
      end
  end.

(** [OrderItemRead.model_validate(oi)] *)
Definition OrderItemRead_model_validate (oi : OrderItem.t) : Result OrderItemRead.t :=
  let r := OrderItemRead.mk (OrderItem.id oi) (OrderItem.menu_item_id oi)
             (OrderItem.quantity oi) (OrderItem.price_cents_each oi) in
  if OrderItemRead.validate r then Ok r else Raise ValidationError.

Definition _order_to_read (order : LoadedOrder) : Result OrderRead.t :=
  let (o, rows) := order in
  match traverse OrderItemRead_model_validate rows with
  | Raise e => Raise e
  | Ok items =>
      let r := OrderRead.mk (Order.id o) (Order.restaurant_id o) (Order.status o)
                 (Order.total_cents o) (Order.created_at o) items in
      if OrderRead.validate r then Ok r else Raise ValidationError
  end.

(** Python's [str] of an [int], as the f-strings of the details use it. *)
Definition str (n : Z) : string := NilZero.string_of_int (Z.to_int n).

Definition invalid_menu_item_detail (menu_item_id : Z) : string :=
  String.append "Invalid menu item "
    (String.append (str menu_item_id) " for this restaurant").

Definition not_available_detail (menu_item_id : Z) : string :=
  String.append "Menu item " (String.append (str menu_item_id) " is not available").

(** The loop of [create_order] over [payload.items], with the running
    [total]. *)
Fixpoint create_order_lines (restaurant_id order_id : Z)
    (lines : list OrderItemCreate.t) (total : Z) : Handler Z :=
  match lines with
  | [] => ret total
  | line :: rest =>
      let menu_item_id := OrderItemCreate.menu_item_id line in
      menu_item <- db_get_menu_item menu_item_id;;
      match menu_item with
      | None => raise (HTTPException 400 (invalid_menu_item_detail menu_item_id))
      | Some m =>
          if negb (MenuItem.restaurant_id m =? restaurant_id) then
            raise (HTTPException 400 (invalid_menu_item_detail menu_item_id))
          else if negb (MenuItem.is_available m) then
            raise (HTTPException 400 (not_available_detail menu_item_id))
          else
            let price_each := MenuItem.price_cents m in
            let total := total + price_each * OrderItemCreate.quantity line in
            db_add (NewOrderItem order_id menu_item_id
                      (OrderItemCreate.quantity line) price_each);;
            create_order_lines restaurant_id order_id rest total
      end
  end.

Definition create_order (payload : OrderCreate.t) : Handler OrderRead.t :=
  let restaurant_id := OrderCreate.restaurant_id payload in
  restaurant <- db_get_restaurant restaurant_id;;
  match restaurant with
  | None => raise (HTTPException 404 "Restaurant not found")
  | Some _ =>
      order_id <- db_add_order_flush restaurant_id "created" 0;;
      total <- create_order_lines restaurant_id order_id (OrderCreate.items payload) 0;;
      db_add (SetOrderTotalCents order_id total);;
      db_commit;;
      order_full <- select_order_first order_id;;
      match order_full with
      | None => raise AssertionError
      | Some o => lift (_order_to_read o)
      end
  end.

Definition list_orders (max_offset : Z) (status : option string) (limit offset : Z)
  : Handler (list OrderRead.t) :=
  orders <- select_orders_all max_offset status limit offset;;
  lift (traverse _order_to_read orders).

Definition get_order (order_id : Z) : Handler OrderRead.t :=
  order <- select_order_first order_id;;
  match order with
  | None => raise (HTTPException 404 "Order not found")
  | Some o => lift (_order_to_read o)
  end.

Definition invalid_status_detail : string :=
  "Invalid status. Allowed: ['cancelled', 'created', 'delivered', 'out_for_delivery', 'paid', 'preparing']".

Definition update_delivery_status (order_id : Z) (payload : DeliveryUpdate.t)
  : Handler OrderRead.t :=
  if negb (is_valid_status (DeliveryUpdate.status payload)) then
    raise (HTTPException 400 invalid_status_detail)
  else
    order <- select_order_first order_id;;
    match order with
    | None => raise (HTTPException 404 "Order not found")
    | Some (o, _) =>
        db_add (SetOrderStatus (Order.id o) (DeliveryUpdate.status payload));;
        db_commit;;
        order' <- db_refresh_order (Order.id o);;
        lift (_order_to_read order')
    end.

(** ** routers/payments.py *)

Definition create_payment (payload : PaymentCreate.t) : Handler PaymentResult.t :=
  order <- select_order_first (PaymentCreate.order_id payload);;
  match order with
  | None => raise (HTTPException 404 "Order not found")
  | Some (o, _) =>
      db_add (NewPayment (PaymentCreate.order_id payload) (PaymentCreate.provider payload)
                (PaymentCreate.amount_cents payload));;
      (if PaymentCreate.amount_cents payload >=? Order.total_cents o
       then db_add (SetOrderStatus (Order.id o) "paid")
       else ret tt);;
      db_commit;;
      order' <- load_expired_order (Order.id o);;
      ret (PaymentResult.mk "ok" (Order.id order') (Order.status order'))
  end.

(** ** routers/menu_items.py *)

(** [MenuItemRead.model_validate(item)] *)
Definition MenuItemRead_model_validate (m : MenuItem.t) : Result MenuItemRead.t :=
  if 0 <=? MenuItem.price_cents m then
    Ok (MenuItemRead.mk (MenuItem.restaurant_id m) (MenuItem.name m) (MenuItem.description m)
          (MenuItem.price_cents m) (MenuItem.is_available m) (MenuItem.id m)
          (MenuItem.created_at m))
  else Raise ValidationError.

Definition create_menu_item (payload : MenuItemCreate.t) : Handler MenuItemRead.t :=
  restaurant <- db_get_restaurant (MenuItemCreate.restaurant_id payload);;
  match restaurant with
  | None => raise (HTTPException 404 "Restaurant not found")
  | Some _ =>
      id <- db_add_menu_item_flush payload;;
      db_commit;;
      item <- db_refresh_menu_item id;;
      lift (MenuItemRead_model_validate item)
  end.

(** ** routers/restaurants.py *)

(** [RestaurantRead.model_validate(restaurant)] *)
Definition RestaurantRead_model_validate (r : Restaurant.t) : Result RestaurantRead.t :=
  Ok (RestaurantRead.mk (Restaurant.name r) (Restaurant.description r)
        (Restaurant.is_active r) (Restaurant.id r) (Restaurant.created_at r)).

Definition create_restaurant (payload : RestaurantCreate.t) : Handler RestaurantRead.t :=
  id <- db_add_restaurant_flush payload;;
  db_commit;;
  restaurant <- db_refresh_restaurant id;;
  lift (RestaurantRead_model_validate restaurant).

(** ** The routes, by [operation_id] *)

Definition createOrder (now : Z) (payload : OrderCreate.t) (db : Database)
  : Result OrderRead.t * Database :=
  get_db now (Body OrderCreate.validate create_order payload) db.

Definition listOrders (max_offset : Z) (now : Z) (status : option string)
    (limit offset : option Z) (db : Database) : Result (list OrderRead.t) * Database :=
  get_db now
    (limit <- lift (Query 50 (fun n => (1 <=? n) && (n <=? 200)) limit);;
     offset <- lift (Query 0 (fun n => 0 <=? n) offset);;
     list_orders max_offset status limit offset) db.

Definition getOrder (now : Z) (order_id : Z) (db : Database)
  : Result OrderRead.t * Database :=
  get_db now (get_order order_id) db.

Definition updateDeliveryStatus (now : Z) (order_id : Z) (payload : DeliveryUpdate.t)
    (db : Database) : Result OrderRead.t * Database :=
  get_db now (update_delivery_status order_id payload) db.

Definition createPayment (now : Z) (payload : PaymentCreate.t) (db : Database)
  : Result PaymentResult.t * Database :=
  get_db now (Body PaymentCreate.validate create_payment payload) db.

Definition createRestaurant (now : Z) (payload : RestaurantCreate.t) (db : Database)
  : Result RestaurantRead.t * Database :=
  get_db now (Body RestaurantCreate.validate create_restaurant payload) db.

Definition createMenuItem (now : Z) (payload : MenuItemCreate.t) (db : Database)
  : Result MenuItemRead.t * Database :=
  get_db now (Body MenuItemCreate.validate create_menu_item payload) db.

(** * Vocabulary of the properties *)

(** ** What a line of an order request meets in the menu *)

Definition lookup_menu_item (t : Tables) (id : Z) : option MenuItem.t :=
  find (fun m => MenuItem.id m =? id) (menu_items t).

Definition lookup_restaurant (t : Tables) (id : Z) : option Restaurant.t :=
  find (fun r => Restaurant.id r =? id) (restaurants t).

Definition lookup_order (t : Tables) (id : Z) : option Order.t :=
  find (fun o => Order.id o =? id) (orders t).

(** The referenced item exists, belongs to the restaurant and is
    available. *)
Definition line_passes (t : Tables) (restaurant_id : Z) (l : OrderItemCreate.t) : Prop :=
  exists m, lookup_menu_item t (OrderItemCreate.menu_item_id l) = Some m /\
            MenuItem.restaurant_id m = restaurant_id /\
            MenuItem.is_available m = true.

(** The referenced item does not exist or belongs to another restaurant. *)
Definition line_invalid_reference (t : Tables) (restaurant_id : Z) (l : OrderItemCreate.t)
  : Prop :=
  lookup_menu_item t (OrderItemCreate.menu_item_id l) = None \/
  exists m, lookup_menu_item t (OrderItemCreate.menu_item_id l) = Some m /\
            MenuItem.restaurant_id m <> restaurant_id.

(** The referenced item is on this restaurant's menu but not available. *)
Definition line_unavailable (t : Tables) (restaurant_id : Z) (l : OrderItemCreate.t) : Prop :=
  exists m, lookup_menu_item t (OrderItemCreate.menu_item_id l) = Some m /\
            MenuItem.restaurant_id m = restaurant_id /\
            MenuItem.is_available m = false.

(** A line the specification calls invalid. *)
Definition line_invalid (t : Tables) (restaurant_id : Z) (l : OrderItemCreate.t) : Prop :=
  line_invalid_reference t restaurant_id l \/
  (exists m, lookup_menu_item t (OrderItemCreate.menu_item_id l) = Some m /\
             MenuItem.is_available m = false) \/
  OrderItemCreate.quantity l < 1.

(** The line passes and names a key the store accepts. *)
Definition line_passes_in_range (t : Tables) (rid : Z) (l : OrderItemCreate.t) : Prop :=
  int4 (OrderItemCreate.menu_item_id l) = true /\ line_passes t rid l.

(** The session of [create_order] once the restaurant was found and the
    order row flushed. *)
Definition session_with_new_order (now : Z) (restaurant_id : Z) (db : Database) : Session :=
  mkSession (db_tables db)
    (set_orders
       (fun rows => rows ++ [Order.mk (orders_id_seq (db_seqs db)) restaurant_id "created" 0 now])
       (db_tables db))
    (next_order_id (db_seqs db)) [] now.

(** What [create_order] does after its loop. *)
Definition create_order_finish (order_id total : Z) : Handler OrderRead.t :=
  db_add (SetOrderTotalCents order_id total);;
  db_commit;;
  order_full <- select_order_first order_id;;
  match order_full with
  | None => raise AssertionError
  | Some o => lift (_order_to_read o)
  end.

(** ** Example databases

    The scenario of section 8 of the specification: restaurant R1 with M1
    (500, available) and M2 (300, unavailable), and one item of another
    restaurant. *)

Definition scenario_db : Database :=
  mkDatabase
    (mkTables [Restaurant.mk 1 "R1" None true 0]
       [MenuItem.mk 1 1 "M1" None 500 true 0; MenuItem.mk 2 1 "M2" None 300 false 0;
        MenuItem.mk 3 7 "M3" None 250 true 0]
       [] [] [])
    (mkSequences 2 4 1 1 1).

(** ** What a successful order creation writes *)

(** The price the menu shows for an item. *)
Definition menu_price (t : Tables) (menu_item_id : Z) : Z :=
  match lookup_menu_item t menu_item_id with
  | Some m => MenuItem.price_cents m
  | None => 0
  end.

Definition staged_line (t : Tables) (order_id : Z) (l : OrderItemCreate.t) : Pending :=
  NewOrderItem order_id (OrderItemCreate.menu_item_id l) (OrderItemCreate.quantity l)
    (menu_price t (OrderItemCreate.menu_item_id l)).

(** The order item rows of the lines, keyed from [next_id] on. *)
Fixpoint priced_rows (t : Tables) (order_id next_id : Z) (lines : list OrderItemCreate.t)
  : list OrderItem.t :=
  match lines with
  | [] => []
  | l :: rest =>
      OrderItem.mk next_id order_id (OrderItemCreate.menu_item_id l)
        (OrderItemCreate.quantity l) (menu_price t (OrderItemCreate.menu_item_id l))
      :: priced_rows t order_id (next_id + 1) rest
  end.

Definition lines_total (t : Tables) (lines : list OrderItemCreate.t) : Z :=
  fold_right
    (fun l acc =>
       menu_price t (OrderItemCreate.menu_item_id l) * OrderItemCreate.quantity l + acc)
    0 lines.

Definition OrderItemRead_of (oi : OrderItem.t) : OrderItemRead.t :=
  OrderItemRead.mk (OrderItem.id oi) (OrderItem.menu_item_id oi)
    (OrderItem.quantity oi) (OrderItem.price_cents_each oi).

(** The sum of [price_cents_each * quantity] over the items of a response. *)
Definition items_total (items : list OrderItemRead.t) : Z :=
  fold_right
    (fun i acc => OrderItemRead.price_cents_each i * OrderItemRead.quantity i + acc)
    0 items.

(** ** The constraints the schemas and keys put on stored rows

    Menu items are created with [price_cents >= 0]; order totals and
    snapshot prices are non-negative and quantities at least 1; keys come
    from the sequences, so every stored key and every order key an order
    item refers to lies below the sequence's next value. *)
Definition schema_ok (db : Database) : bool :=
  let t := db_tables db in
  let q := db_seqs db in
  forallb (fun r => int4 (Restaurant.id r)) (restaurants t) &&
  forallb (fun m => (0 <=? MenuItem.price_cents m) && (MenuItem.id m <? menu_items_id_seq q) &&
                    int4 (MenuItem.id m))
    (menu_items t) &&
  forallb (fun o => (0 <=? Order.total_cents o) && (Order.id o <? orders_id_seq q) &&
                    int4 (Order.id o))
    (orders t) &&
  forallb (fun oi => (1 <=? OrderItem.quantity oi) && (0 <=? OrderItem.price_cents_each oi) &&
                     (OrderItem.order_id oi <? orders_id_seq q))
    (order_items t).

(** ** What fits the store *)

Definition is_ok {A} (r : Result A) : bool :=
  match r with
  | Ok _ => true
  | Raise _ => false
  end.

(** Every column of an order item row holds a 32-bit integer. *)
Definition row_fits (oi : OrderItem.t) : bool :=
  int4 (OrderItem.id oi) && int4 (OrderItem.order_id oi) && int4 (OrderItem.menu_item_id oi) &&
  int4 (OrderItem.quantity oi) && int4 (OrderItem.price_cents_each oi).

(** The order of the request can be stored: a key is left for the order
    and for each of its items, and the quantities, prices and total are
    32-bit integers. *)
Definition order_fits (payload : OrderCreate.t) (db : Database) : bool :=
  let t := db_tables db in
  let q := db_seqs db in
  int4 (orders_id_seq q) &&
  forallb row_fits
    (priced_rows t (orders_id_seq q) (order_items_id_seq q) (OrderCreate.items payload)) &&
  int4 (lines_total t (OrderCreate.items payload)).

(** The payment of the request can be stored: a key is left, the order id
    and the amount are 32-bit integers, the provider fits [String(40)]. *)
Definition payment_fits (payload : PaymentCreate.t) (db : Database) : bool :=
  int4 (payments_id_seq (db_seqs db)) && int4 (PaymentCreate.order_id payload) &&
  int4 (PaymentCreate.amount_cents payload) && is_ok (varchar 40 (PaymentCreate.provider payload)).

(** The provider as the payments table keeps it. *)
Definition stored_provider (payload : PaymentCreate.t) : string :=
  match varchar 40 (PaymentCreate.provider payload) with
  | Ok stored => stored
  | Raise _ => PaymentCreate.provider payload
  end.

(** The menu item of the request can be stored. *)
Definition menu_item_fits (payload : MenuItemCreate.t) (db : Database) : bool :=
  int4 (menu_items_id_seq (db_seqs db)) && int4 (MenuItemCreate.restaurant_id payload) &&
  int4 (MenuItemCreate.price_cents payload) &&
  is_ok (varchar 200 (MenuItemCreate.name payload)) &&
  is_ok (text (MenuItemCreate.description payload)).

Definition stored_name (payload : MenuItemCreate.t) : string :=
  match varchar 200 (MenuItemCreate.name payload) with
  | Ok stored => stored
  | Raise _ => MenuItemCreate.name payload
  end.

(** An order table with one delivered order, for the status properties. *)
Definition delivered_db : Database :=
  mkDatabase
    (mkTables [Restaurant.mk 1 "R1" None true 0]
       [MenuItem.mk 1 1 "M1" None 500 true 0]
       [Order.mk 1 1 "delivered" 1000 10]
       [OrderItem.mk 1 1 1 2 500]
       [])
    (mkSequences 2 2 2 2 1).

(** The status an order has after a payment of [amount]. *)
Definition status_after_payment (amount : Z) (o : Order.t) : string :=
  if amount >=? Order.total_cents o then "paid" else Order.status o.

(** One created order of total 1000 in the scenario's restaurant. *)
Definition created_db : Database :=
  mkDatabase
    (mkTables [Restaurant.mk 1 "R1" None true 0]
       [MenuItem.mk 1 1 "M1" None 500 true 0; MenuItem.mk 2 1 "M2" None 300 false 0]
       [Order.mk 1 1 "created" 1000 10]
       [OrderItem.mk 1 1 1 2 500]
       [])
    (mkSequences 2 3 2 2 1).

(** ** Listing *)

(** Descending by identifier. *)
Definition by_id_desc (a b : Order.t) : Prop := Order.id b <= Order.id a.

Definition read_by_id_desc (a b : OrderRead.t) : Prop := OrderRead.id b <= OrderRead.id a.

(** The response built from a stored order and its items. *)
Definition OrderRead_of (t : Tables) (o : Order.t) : OrderRead.t :=
  OrderRead.mk (Order.id o) (Order.restaurant_id o) (Order.status o)
    (Order.total_cents o) (Order.created_at o)
    (map OrderItemRead_of
       (filter (fun oi => OrderItem.order_id oi =? Order.id o) (order_items t))).

(** The bounds of the query parameters of [list_orders]. *)
Definition limit_in_range (limit : option Z) : Prop :=
  match limit with
  | None => True
  | Some n => 1 <= n <= 200
  end.

Definition offset_in_range (offset : option Z) : Prop :=
  match offset with
  | None => True
  | Some n => 0 <= n
  end.

Definition or_default (default : Z) (v : option Z) : Z :=
  match v with
  | None => default
  | Some n => n
  end.

(** Three orders, inserted out of key order, for the listing property. *)
Definition listing_db : Database :=
  mkDatabase
    (mkTables [Restaurant.mk 1 "R1" None true 0]
       [MenuItem.mk 1 1 "M1" None 500 true 0]
       [Order.mk 2 1 "paid" 500 11; Order.mk 1 1 "created" 1000 10;
        Order.mk 3 1 "paid" 0 12]
       [OrderItem.mk 1 1 1 2 500; OrderItem.mk 2 2 1 1 500]
       [])
    (mkSequences 2 2 4 3 1).

(** ** The databases the routes can produce

    Starting from the empty database, by any sequence of the routes that
    write.  The reading routes leave the database as it is. *)
Inductive reachable : Database -> Prop :=
| reachable_empty : reachable empty_database
| reachable_createRestaurant now payload db :
    reachable db -> reachable (snd (createRestaurant now payload db))
| reachable_createMenuItem now payload db :
    reachable db -> reachable (snd (createMenuItem now payload db))
| reachable_createOrder now payload db :
    reachable db -> reachable (snd (createOrder now payload db))
| reachable_updateDeliveryStatus now order_id payload db :
    reachable db -> reachable (snd (updateDeliveryStatus now order_id payload db))
| reachable_createPayment now payload db :
    reachable db -> reachable (snd (createPayment now payload db)).
(** * Properties *)

(** ** Lines of an order request *)

Lemma line_passes_or_fails (t : Tables) (rid : Z) (l : OrderItemCreate.t) :
  line_passes t rid l \/ line_invalid_reference t rid l \/ line_unavailable t rid l.
Proof.
  unfold line_passes, line_invalid_reference, line_unavailable.
  destruct (lookup_menu_item t (OrderItemCreate.menu_item_id l)) as [m|] eqn:E.
  - destruct (Z.eq_dec (MenuItem.restaurant_id m) rid) as [Hr|Hr].
    + destruct (MenuItem.is_available m) eqn:Ha.
      * left. exists m. auto.
      * right. right. exists m. auto.
    + right. left. right. exists m. auto.
  - right. left. left. reflexivity.
Qed.

Lemma line_invalid_not_passes (t : Tables) (rid : Z) (l : OrderItemCreate.t) :
  line_invalid t rid l -> 1 <= OrderItemCreate.quantity l -> ~ line_passes t rid l.
Proof.
  intros [Hi | [Hu | Hq]] Hge [m [Hm [Hr Ha]]].
  - destruct Hi as [Hn | [m' [Hm' Hr']]]; congruence.
  - destruct Hu as [m' [Hm' Ha']]. congruence.
  - lia.
Qed.

(** ** The loop over the lines *)

(** The loop only stages: it writes to neither view of the tables. *)
Lemma create_order_lines_frame (rid oid : Z) (lines : list OrderItemCreate.t) :
  forall total s,
    let s' := snd (create_order_lines rid oid lines total s) in
    committed s' = committed s /\ working s' = working s /\
    seqs s' = seqs s /\ utcnow s' = utcnow s.
Proof.
  induction lines as [|l rest IH]; intros total s; simpl.
  - auto.
  - unfold bind, db_get_menu_item. simpl.
    destruct (int4 (OrderItemCreate.menu_item_id l)); simpl; auto.
    destruct (find _ (menu_items (working s))) as [m|]; simpl; auto.
    destruct (MenuItem.restaurant_id m =? rid); simpl; auto.
    destruct (MenuItem.is_available m); simpl; auto.
    apply (IH _ (mkSession (committed s) (working s) (seqs s) _ (utcnow s))).
Qed.

(** One passing line: its item is staged at the menu's price and the
    loop goes on. *)
Lemma create_order_lines_step (rid oid : Z) (l : OrderItemCreate.t)
    (rest : list OrderItemCreate.t) (total : Z) (s : Session) (m : MenuItem.t) :
  int4 (OrderItemCreate.menu_item_id l) = true ->
  lookup_menu_item (working s) (OrderItemCreate.menu_item_id l) = Some m ->
  MenuItem.restaurant_id m = rid ->
  MenuItem.is_available m = true ->
  create_order_lines rid oid (l :: rest) total s =
  create_order_lines rid oid rest
    (total + MenuItem.price_cents m * OrderItemCreate.quantity l)
    (mkSession (committed s) (working s) (seqs s)
       (pending s ++ [NewOrderItem oid (OrderItemCreate.menu_item_id l)
                        (OrderItemCreate.quantity l) (MenuItem.price_cents m)])
       (utcnow s)).
Proof.
  intros Hi Hm Hr Ha. simpl. unfold bind, db_get_menu_item, db_add. simpl.
  unfold lookup_menu_item in Hm. rewrite Hi, Hm.
  apply Z.eqb_eq in Hr. rewrite Hr, Ha. reflexivity.
Qed.

(** A line whose menu item id is not a 32-bit integer is refused by the
    store. *)
Lemma create_order_lines_out_of_range (rid oid : Z) (l : OrderItemCreate.t)
    (rest : list OrderItemCreate.t) (total : Z) (s : Session) :
  int4 (OrderItemCreate.menu_item_id l) = false ->
  fst (create_order_lines rid oid (l :: rest) total s) = Raise DataError.
Proof.
  intros Hi. simpl. unfold bind, db_get_menu_item. rewrite Hi. reflexivity.
Qed.

(** The first line that does not pass raises, and which exception it
    raises depends on that line alone. *)
Lemma create_order_lines_first_failure (rid oid : Z)
    (pre post : list OrderItemCreate.t) (l : OrderItemCreate.t) :
  forall total s,
    Forall (line_passes_in_range (working s) rid) pre ->
    (int4 (OrderItemCreate.menu_item_id l) = false ->
     fst (create_order_lines rid oid (pre ++ l :: post) total s) = Raise DataError) /\
    (int4 (OrderItemCreate.menu_item_id l) = true ->
     line_invalid_reference (working s) rid l ->
     fst (create_order_lines rid oid (pre ++ l :: post) total s) =
       Raise (HTTPException 400 (invalid_menu_item_detail (OrderItemCreate.menu_item_id l)))) /\
    (int4 (OrderItemCreate.menu_item_id l) = true ->
     line_unavailable (working s) rid l ->
     fst (create_order_lines rid oid (pre ++ l :: post) total s) =
       Raise (HTTPException 400 (not_available_detail (OrderItemCreate.menu_item_id l)))).
Proof.
  induction pre as [|p pre IH]; intros total s Hpre.
  - simpl. unfold bind, db_get_menu_item, line_invalid_reference, line_unavailable,
      lookup_menu_item. simpl.
    split; [|split].
    + intros Hi. rewrite Hi. reflexivity.
    + intros Hi [Hn | [m [Hm Hr]]]; rewrite Hi.
      * rewrite Hn. reflexivity.
      * rewrite Hm. apply Z.eqb_neq in Hr. rewrite Hr. reflexivity.
    + intros Hi [m [Hm [Hr Ha]]]. rewrite Hi.
      rewrite Hm. apply Z.eqb_eq in Hr. rewrite Hr, Ha. reflexivity.
  - apply Forall_cons_iff in Hpre. destruct Hpre as [[Hi [m [Hm [Hr Ha]]]] Hrest].
    rewrite <- app_comm_cons.
    rewrite (create_order_lines_step rid oid p _ total s m Hi Hm Hr Ha).
    exact (IH _ (mkSession _ _ _ _ _) Hrest).
Qed.

Lemma Forall_split_first_failure {A} (P Q : A -> Prop) (l : list A) :
  (forall x, P x \/ Q x) ->
  Forall P l \/ exists pre x post, l = pre ++ x :: post /\ Forall P pre /\ Q x.
Proof.
  intros HPQ. induction l as [|a l IH].
  - left. constructor.
  - destruct (HPQ a) as [Ha|Ha].
    + destruct IH as [IH | [pre [x [post [E [Hp Hx]]]]]].
      * left. constructor; assumption.
      * right. exists (a :: pre), x, post. subst. repeat split; auto.
    + right. exists [], a, l. repeat split; auto.
Qed.

Lemma line_in_range_or_fails (t : Tables) (rid : Z) (l : OrderItemCreate.t) :
  line_passes_in_range t rid l \/
  (int4 (OrderItemCreate.menu_item_id l) = false \/
   int4 (OrderItemCreate.menu_item_id l) = true /\
   (line_invalid_reference t rid l \/ line_unavailable t rid l)).
Proof.
  unfold line_passes_in_range.
  destruct (int4 (OrderItemCreate.menu_item_id l)) eqn:Hi.
  - destruct (line_passes_or_fails t rid l) as [H | H].
    + left. split; [reflexivity | exact H].
    + right. right. split; [reflexivity | exact H].
  - right. left. reflexivity.
Qed.

(** With one line that does not pass, the loop raises. *)
Lemma create_order_lines_raises (rid oid : Z) (lines : list OrderItemCreate.t) :
  forall total s,
    ~ Forall (line_passes (working s) rid) lines ->
    exists e, fst (create_order_lines rid oid lines total s) = Raise e.
Proof.
  intros total s Hnot.
  destruct (Forall_split_first_failure
              (line_passes_in_range (working s) rid)
              (fun l => int4 (OrderItemCreate.menu_item_id l) = false \/
                        int4 (OrderItemCreate.menu_item_id l) = true /\
                        (line_invalid_reference (working s) rid l \/
                         line_unavailable (working s) rid l))
              lines (line_in_range_or_fails (working s) rid))
    as [Hall | [pre [x [post [E [Hpre Hx]]]]]].
  - exfalso. apply Hnot. revert Hall. apply Forall_impl. intros l [_ H]. exact H.
  - subst lines.
    destruct (create_order_lines_first_failure rid oid pre post x total s Hpre)
      as [H0 [H1 H2]].
    destruct Hx as [Hx | [Hi [Hx | Hx]]]; eexists; [apply H0 | apply H1 | apply H2];
      assumption.
Qed.

(** ** Requests that are refused leave the tables alone *)

Lemma close_open_session (now : Z) (db : Database) :
  close_session (open_session now db) = db.
Proof. destruct db. reflexivity. Qed.

Lemma line_passes_menu (t t' : Tables) (rid : Z) (l : OrderItemCreate.t) :
  menu_items t' = menu_items t -> line_passes t rid l -> line_passes t' rid l.
Proof.
  unfold line_passes, lookup_menu_item. intros ->. auto.
Qed.

Lemma create_order_restaurant_out_of_range (now : Z) (payload : OrderCreate.t)
    (db : Database) :
  int4 (OrderCreate.restaurant_id payload) = false ->
  get_db now (create_order payload) db = (Raise DataError, db).
Proof.
  intros Hi. unfold get_db, create_order, bind, db_get_restaurant. simpl.
  rewrite Hi. simpl. rewrite close_open_session. reflexivity.
Qed.

Lemma create_order_restaurant_missing (now : Z) (payload : OrderCreate.t) (db : Database) :
  int4 (OrderCreate.restaurant_id payload) = true ->
  lookup_restaurant (db_tables db) (OrderCreate.restaurant_id payload) = None ->
  get_db now (create_order payload) db =
    (Raise (HTTPException 404 "Restaurant not found"), db).
Proof.
  intros Hi Hr. unfold get_db, create_order, bind, db_get_restaurant. simpl.
  unfold lookup_restaurant in Hr. rewrite Hi, Hr. simpl.
  rewrite close_open_session. reflexivity.
Qed.

(** No key is left for the order: the store refuses the order row. *)
Lemma create_order_no_key (now : Z) (payload : OrderCreate.t) (db : Database)
    (r : Restaurant.t) :
  int4 (OrderCreate.restaurant_id payload) = true ->
  lookup_restaurant (db_tables db) (OrderCreate.restaurant_id payload) = Some r ->
  int4 (orders_id_seq (db_seqs db)) = false ->
  get_db now (create_order payload) db = (Raise DataError, db).
Proof.
  intros Hi Hr Hk. unfold get_db, create_order, bind, db_get_restaurant,
    db_add_order_flush. simpl.
  unfold lookup_restaurant in Hr. rewrite Hi, Hr. simpl. rewrite Hk. simpl.
  destruct db. reflexivity.
Qed.

Lemma create_order_restaurant_found (now : Z) (payload : OrderCreate.t) (db : Database)
    (r : Restaurant.t) :
  int4 (OrderCreate.restaurant_id payload) = true ->
  lookup_restaurant (db_tables db) (OrderCreate.restaurant_id payload) = Some r ->
  int4 (orders_id_seq (db_seqs db)) = true ->
  create_order payload (open_session now db) =
    match create_order_lines (OrderCreate.restaurant_id payload)
            (orders_id_seq (db_seqs db)) (OrderCreate.items payload) 0
            (session_with_new_order now (OrderCreate.restaurant_id payload) db) with
    | (Ok total, s) => create_order_finish (orders_id_seq (db_seqs db)) total s
    | (Raise e, s) => (Raise e, s)
    end.
Proof.
  intros Hi Hr Hk. unfold create_order, create_order_finish, bind, db_get_restaurant,
    db_add_order_flush. simpl.
  unfold lookup_restaurant in Hr. rewrite Hi, Hr. simpl. rewrite Hk. simpl.
  reflexivity.
Qed.

(** [create_order] under [get_db] when some line does not pass: the
    request raises and the database keeps its tables; the orders sequence
    has moved on when the order row had been flushed. *)
Lemma create_order_refused (now : Z) (payload : OrderCreate.t) (db : Database) :
  ~ Forall (line_passes (db_tables db) (OrderCreate.restaurant_id payload))
      (OrderCreate.items payload) ->
  exists e q,
    get_db now (create_order payload) db = (Raise e, mkDatabase (db_tables db) q) /\
    (q = db_seqs db \/ q = next_order_id (db_seqs db)).
Proof.
  intros Hnot.
  destruct (int4 (OrderCreate.restaurant_id payload)) eqn:Hi.
  2:{ rewrite (create_order_restaurant_out_of_range now payload db Hi).
      exists DataError, (db_seqs db). split; [destruct db; reflexivity | left; reflexivity]. }
  destruct (lookup_restaurant (db_tables db) (OrderCreate.restaurant_id payload))
    as [r|] eqn:Hr.
  - destruct (int4 (orders_id_seq (db_seqs db))) eqn:Hk.
    2:{ rewrite (create_order_no_key now payload db r Hi Hr Hk).
        exists DataError, (db_seqs db).
        split; [destruct db; reflexivity | left; reflexivity]. }
    unfold get_db. rewrite (create_order_restaurant_found now payload db r Hi Hr Hk).
    set (s1 := session_with_new_order _ _ _).
    pose proof (create_order_lines_frame (OrderCreate.restaurant_id payload)
                  (orders_id_seq (db_seqs db)) (OrderCreate.items payload) 0 s1) as Hframe.
    destruct (create_order_lines_raises (OrderCreate.restaurant_id payload)
                (orders_id_seq (db_seqs db)) (OrderCreate.items payload) 0 s1) as [e He].
    + intros Hall. apply Hnot. revert Hall. apply Forall_impl. intros l.
      apply line_passes_menu. reflexivity.
    + destruct (create_order_lines _ _ _ 0 s1) as [res s2]. simpl in *.
      subst res. exists e, (seqs s2). unfold close_session.
      destruct Hframe as [-> [_ [-> _]]]. split; [reflexivity | right; reflexivity].
  - rewrite (create_order_restaurant_missing now payload db Hi Hr).
    exists (HTTPException 404 "Restaurant not found"), (db_seqs db).
    split; [destruct db; reflexivity | left; reflexivity].
Qed.

(** What [listOrders] answers is a function of the tables. *)
Lemma listOrders_tables (max_offset now : Z) (status : option string)
    (limit offset : option Z) (db db' : Database) :
  db_tables db' = db_tables db ->
  fst (listOrders max_offset now status limit offset db') =
  fst (listOrders max_offset now status limit offset db).
Proof.
  intros E. unfold listOrders, get_db, bind, lift, list_orders, select_orders_all, bind, lift.
  simpl. destruct (Query 50 _ limit); simpl; [|reflexivity].
  destruct (Query 0 _ offset); simpl; [|reflexivity].
  rewrite E. destruct (listing_accepted max_offset status a a0); reflexivity.
Qed.

(** C1: a request to create an order that has a line whose menu item does
    not exist, belongs to another restaurant or is unavailable, or whose
    quantity is below 1, fails, and afterwards the tables are what they
    were before the request (no order row, no order item row): nothing is
    committed before every line has been checked.  A later [list_orders]
    answers as it would have before. *)
Theorem create_order_invalid_line_persists_nothing
    (now : Z) (payload : OrderCreate.t) (db : Database) (l : OrderItemCreate.t) :
  In l (OrderCreate.items payload) ->
  line_invalid (db_tables db) (OrderCreate.restaurant_id payload) l ->
  (exists e, fst (createOrder now payload db) = Raise e) /\
  db_tables (snd (createOrder now payload db)) = db_tables db /\
  (forall max_offset now' status limit offset,
      fst (listOrders max_offset now' status limit offset (snd (createOrder now payload db))) =
      fst (listOrders max_offset now' status limit offset db)).
Proof.
  intros Hin Hinv.
  assert (H : (exists e, fst (createOrder now payload db) = Raise e) /\
              db_tables (snd (createOrder now payload db)) = db_tables db).
  { unfold createOrder, Body.
    destruct (OrderCreate.validate payload) eqn:Hv.
    - destruct (create_order_refused now payload db) as [e [q [E _]]].
      + intros Hall. rewrite Forall_forall in Hall.
        unfold OrderCreate.validate in Hv. apply andb_true_iff in Hv. destruct Hv as [_ Hq].
        rewrite forallb_forall in Hq. specialize (Hq l Hin).
        unfold OrderItemCreate.validate in Hq. apply Z.leb_le in Hq.
        exact (line_invalid_not_passes _ _ _ Hinv Hq (Hall l Hin)).
      + rewrite E. simpl. split; [eauto | reflexivity].
    - unfold get_db, raise. simpl. split; [eauto | reflexivity]. }
  destruct H as [He Ht]. repeat split; try assumption.
  intros. apply listOrders_tables. exact Ht.
Qed.

Lemma create_order_invalid_line_persists_nothing_witness :
  (exists e, fst (createOrder 10
                    (OrderCreate.mk 1 [OrderItemCreate.mk 1 2; OrderItemCreate.mk 2 1])
                    scenario_db) = Raise e) /\
  db_tables (snd (createOrder 10
                    (OrderCreate.mk 1 [OrderItemCreate.mk 1 2; OrderItemCreate.mk 2 1])
                    scenario_db)) = db_tables scenario_db.
Proof.
  pose proof (create_order_invalid_line_persists_nothing 10
                (OrderCreate.mk 1 [OrderItemCreate.mk 1 2; OrderItemCreate.mk 2 1])
                scenario_db (OrderItemCreate.mk 2 1)) as H.
  destruct H as [He [Ht _]].
  - simpl. right. left. reflexivity.
  - right. left. exists (MenuItem.mk 2 1 "M2" None 300 false 0). split; reflexivity.
  - split; assumption.
Defined.

(** C4: [create_order] answers 404 "Restaurant not found" when the
    restaurant id is a 32-bit integer that matches no restaurant; an id
    outside that range is refused by the store (DataError).  When the
    restaurant exists and a key is left for the order, the lines are checked
    in input order and the first line that does not pass decides the error:
    400 "Invalid menu item ... for this restaurant" when its item does not
    exist or belongs to another restaurant, 400 "Menu item ... is not
    available" when the item is on the restaurant's menu but not marked
    available, DataError when its item id is not a 32-bit integer. *)
Theorem create_order_first_failing_line_decides
    (now : Z) (payload : OrderCreate.t) (db : Database) :
  (int4 (OrderCreate.restaurant_id payload) = false ->
   fst (get_db now (create_order payload) db) = Raise DataError) /\
  (int4 (OrderCreate.restaurant_id payload) = true ->
   lookup_restaurant (db_tables db) (OrderCreate.restaurant_id payload) = None ->
   fst (get_db now (create_order payload) db) =
     Raise (HTTPException 404 "Restaurant not found")) /\
  (forall r pre l post,
      int4 (OrderCreate.restaurant_id payload) = true ->
      lookup_restaurant (db_tables db) (OrderCreate.restaurant_id payload) = Some r ->
      int4 (orders_id_seq (db_seqs db)) = true ->
      OrderCreate.items payload = pre ++ l :: post ->
      Forall (line_passes_in_range (db_tables db) (OrderCreate.restaurant_id payload)) pre ->
      (int4 (OrderItemCreate.menu_item_id l) = false ->
       fst (get_db now (create_order payload) db) = Raise DataError) /\
      (int4 (OrderItemCreate.menu_item_id l) = true ->
       line_invalid_reference (db_tables db) (OrderCreate.restaurant_id payload) l ->
       fst (get_db now (create_order payload) db) =
         Raise (HTTPException 400
                  (invalid_menu_item_detail (OrderItemCreate.menu_item_id l)))) /\
      (int4 (OrderItemCreate.menu_item_id l) = true ->
       line_unavailable (db_tables db) (OrderCreate.restaurant_id payload) l ->
       fst (get_db now (create_order payload) db) =
         Raise (HTTPException 400
                  (not_available_detail (OrderItemCreate.menu_item_id l))))).
Proof.
  split; [|split].
  - intros Hi. rewrite (create_order_restaurant_out_of_range now payload db Hi). reflexivity.
  - intros Hi Hr. rewrite (create_order_restaurant_missing now payload db Hi Hr). reflexivity.
  - intros r pre l post Hi Hr Hk Hitems Hpre.
    unfold get_db. rewrite (create_order_restaurant_found now payload db r Hi Hr Hk).
    set (s1 := session_with_new_order _ _ _).
    rewrite Hitems.
    destruct (create_order_lines_first_failure (OrderCreate.restaurant_id payload)
                (orders_id_seq (db_seqs db)) pre post l 0 s1) as [H0 [H1 H2]].
    { revert Hpre. apply Forall_impl. intros x [Hx Hp]. split; [exact Hx|].
      revert Hp. apply line_passes_menu. reflexivity. }
    destruct (create_order_lines _ _ (pre ++ l :: post) 0 s1) as [res s2].
    simpl in H0, H1, H2. split; [|split].
    + intros Hl. rewrite H0; [reflexivity | exact Hl].
    + intros Hl Hx. rewrite H1; [reflexivity | exact Hl | exact Hx].
    + intros Hl Hx. rewrite H2; [reflexivity | exact Hl | exact Hx].
Qed.

Lemma create_order_first_failing_line_decides_witness :
  fst (get_db 10 (create_order (OrderCreate.mk 9 [OrderItemCreate.mk 1 2])) scenario_db) =
    Raise (HTTPException 404 "Restaurant not found") /\
  fst (get_db 10 (create_order
                    (OrderCreate.mk 1 [OrderItemCreate.mk 1 2; OrderItemCreate.mk 3 1;
                                       OrderItemCreate.mk 2 1])) scenario_db) =
    Raise (HTTPException 400 "Invalid menu item 3 for this restaurant") /\
  fst (get_db 10 (create_order
                    (OrderCreate.mk 1 [OrderItemCreate.mk 1 2; OrderItemCreate.mk 2 1;
                                       OrderItemCreate.mk 3 1])) scenario_db) =
    Raise (HTTPException 400 "Menu item 2 is not available").
Proof.
  assert (Hpre : Forall (line_passes_in_range (db_tables scenario_db) 1)
                   [OrderItemCreate.mk 1 2]).
  { constructor; [|constructor]. split; [reflexivity|].
    exists (MenuItem.mk 1 1 "M1" None 500 true 0). repeat split; reflexivity. }
  split; [|split].
  - apply (proj1 (proj2 (create_order_first_failing_line_decides 10
                    (OrderCreate.mk 9 [OrderItemCreate.mk 1 2]) scenario_db)));
      reflexivity.
  - apply (proj1 (proj2 (proj2 (proj2 (create_order_first_failing_line_decides 10
                    (OrderCreate.mk 1 [OrderItemCreate.mk 1 2; OrderItemCreate.mk 3 1;
                                       OrderItemCreate.mk 2 1]) scenario_db))
                    (Restaurant.mk 1 "R1" None true 0) [OrderItemCreate.mk 1 2]
                    (OrderItemCreate.mk 3 1) [OrderItemCreate.mk 2 1]
                    eq_refl eq_refl eq_refl eq_refl Hpre))).
    + reflexivity.
    + right. exists (MenuItem.mk 3 7 "M3" None 250 true 0). split; [reflexivity|].
      simpl. lia.
  - apply (proj2 (proj2 (proj2 (proj2 (create_order_first_failing_line_decides 10
                    (OrderCreate.mk 1 [OrderItemCreate.mk 1 2; OrderItemCreate.mk 2 1;
                                       OrderItemCreate.mk 3 1]) scenario_db))
                    (Restaurant.mk 1 "R1" None true 0) [OrderItemCreate.mk 1 2]
                    (OrderItemCreate.mk 2 1) [OrderItemCreate.mk 3 1]
                    eq_refl eq_refl eq_refl eq_refl Hpre))).
    + reflexivity.
    + exists (MenuItem.mk 2 1 "M2" None 300 false 0). repeat split; reflexivity.
Defined.

(** The claim without the range conditions fails: restaurant id 2^31
    matches no restaurant, and menu item id 2^31 matches no menu item, yet
    the answer is the store's DataError, not 404 or 400. *)
Lemma create_order_first_failing_line_decides_counterexample :
  lookup_restaurant (db_tables scenario_db) 2147483648 = None /\
  fst (get_db 10 (create_order (OrderCreate.mk 2147483648 [OrderItemCreate.mk 1 2]))
         scenario_db) = Raise DataError /\
  fst (get_db 10 (create_order (OrderCreate.mk 2147483648 [OrderItemCreate.mk 1 2]))
         scenario_db) <> Raise (HTTPException 404 "Restaurant not found") /\
  lookup_menu_item (db_tables scenario_db) 2147483648 = None /\
  fst (get_db 10 (create_order (OrderCreate.mk 1 [OrderItemCreate.mk 2147483648 1]))
         scenario_db) = Raise DataError.
Proof.
  repeat split; try reflexivity. intros H. discriminate H.
Qed.

(** ** A request whose lines all pass *)

Lemma create_order_lines_pass (rid oid : Z) (lines : list OrderItemCreate.t) :
  forall total s,
    Forall (line_passes_in_range (working s) rid) lines ->
    create_order_lines rid oid lines total s =
      (Ok (total + lines_total (working s) lines),
       mkSession (committed s) (working s) (seqs s)
         (pending s ++ map (staged_line (working s) oid) lines) (utcnow s)).
Proof.
  induction lines as [|l rest IH]; intros total s Hall.
  - simpl. unfold ret. rewrite app_nil_r, Z.add_0_r. destruct s. reflexivity.
  - apply Forall_cons_iff in Hall. destruct Hall as [[Hi [m [Hm [Hr Ha]]]] Hrest].
    rewrite (create_order_lines_step rid oid l rest total s m Hi Hm Hr Ha).
    rewrite (IH _ (mkSession _ _ _ _ _) Hrest). simpl.
    assert (Hp : menu_price (working s) (OrderItemCreate.menu_item_id l) =
                 MenuItem.price_cents m) by (unfold menu_price; rewrite Hm; reflexivity).
    unfold staged_line at 2. rewrite Hp. rewrite <- app_assoc. simpl.
    f_equal. f_equal. lia.
Qed.

(** The staged lines are written when every row fits its columns. *)
Lemma flush_all_staged_lines (now : Z) (t0 : Tables) (oid : Z)
    (lines : list OrderItemCreate.t) (tail : list Pending) :
  forall a b c d e q,
    forallb row_fits (priced_rows t0 oid (order_items_id_seq q) lines) = true ->
    flush_all now (map (staged_line t0 oid) lines ++ tail) (mkTables a b c d e, q) =
    flush_all now tail
      (mkTables a b c (d ++ priced_rows t0 oid (order_items_id_seq q) lines) e,
       mkSequences (restaurants_id_seq q) (menu_items_id_seq q) (orders_id_seq q)
         (order_items_id_seq q + Z.of_nat (List.length lines)) (payments_id_seq q)).
Proof.
  induction lines as [|l rest IH]; intros a b c d e q Hfit.
  - simpl. rewrite app_nil_r, Z.add_0_r. destruct q. reflexivity.
  - simpl in Hfit. apply andb_true_iff in Hfit. destruct Hfit as [Hrow Hrest].
    unfold row_fits in Hrow. simpl in Hrow.
    simpl map. simpl app. simpl flush_all. unfold staged_line at 1. simpl flush_one.
    rewrite Hrow. unfold set_order_items, next_order_item_id. simpl.
    rewrite (IH a b c _ e
               (mkSequences (restaurants_id_seq q) (menu_items_id_seq q) (orders_id_seq q)
                  (order_items_id_seq q + 1) (payments_id_seq q)) Hrest).
    simpl. rewrite <- app_assoc. simpl.
    replace (order_items_id_seq q + 1 + Z.of_nat (List.length rest))
      with (order_items_id_seq q + Z.pos (Pos.of_succ_nat (List.length rest))) by lia.
    reflexivity.
Qed.

Lemma flush_all_cons (now : Z) (p : Pending) (ps : list Pending) (tq : Tables * Sequences) :
  flush_all now (p :: ps) tq =
    match flush_one now p tq with
    | Ok tq' => flush_all now ps tq'
    | Raise e => (Some e, tq)
    end.
Proof. reflexivity. Qed.

(** The store raises nothing but [DataError]. *)
Lemma varchar_raises (n : nat) (s : string) (e : Exception) :
  varchar n s = Raise e -> e = DataError.
Proof.
  unfold varchar. destruct (negb (text_ok s)); [congruence|].
  destruct (String.length s <=? n)%nat; [discriminate|].
  destruct (all_spaces _); [discriminate | congruence].
Qed.

Lemma flush_one_raises (now : Z) (p : Pending) (tq : Tables * Sequences) (e : Exception) :
  flush_one now p tq = Raise e -> e = DataError.
Proof.
  destruct tq as [t q]. destruct p; simpl.
  - destruct (int4 _ && _ && _ && _ && _); [discriminate | congruence].
  - destruct (int4 _ && _ && _); [|congruence].
    destruct (varchar 40 provider) eqn:E; [discriminate|].
    intros H. injection H as <-. exact (varchar_raises _ _ _ E).
  - destruct (int4 _ && _); [discriminate | congruence].
  - destruct (int4 order_id); [|congruence].
    destruct (varchar 40 status) eqn:E; [discriminate|].
    intros H. injection H as <-. exact (varchar_raises _ _ _ E).
Qed.

Lemma flush_all_raises (now : Z) (ps : list Pending) :
  forall tq e, fst (flush_all now ps tq) = Some e -> e = DataError.
Proof.
  induction ps as [|p ps IH]; intros tq e.
  - simpl. discriminate.
  - rewrite flush_all_cons.
    destruct (flush_one now p tq) as [tq1|e1] eqn:E.
    + apply IH.
    + simpl. intros H. injection H as <-. exact (flush_one_raises _ _ _ _ E).
Qed.

(** The staged lines are refused when a row does not fit. *)
Lemma flush_all_staged_lines_refused (now : Z) (t0 : Tables) (oid : Z)
    (lines : list OrderItemCreate.t) (tail : list Pending) :
  forall t q,
    forallb row_fits (priced_rows t0 oid (order_items_id_seq q) lines) = false ->
    fst (flush_all now (map (staged_line t0 oid) lines ++ tail) (t, q)) = Some DataError.
Proof.
  induction lines as [|l rest IH]; intros t q Hfit.
  - simpl in Hfit. discriminate.
  - simpl in Hfit. simpl map. simpl app. simpl flush_all.
    unfold staged_line at 1. simpl flush_one.
    unfold row_fits at 1 in Hfit. simpl in Hfit.
    destruct (int4 (order_items_id_seq q) && int4 oid &&
              int4 (OrderItemCreate.menu_item_id l) && int4 (OrderItemCreate.quantity l) &&
              int4 (menu_price t0 (OrderItemCreate.menu_item_id l))) eqn:Hrow.
    + simpl in Hfit. apply (IH _ (next_order_item_id q)). exact Hfit.
    + reflexivity.
Qed.

Lemma find_none_below (k : Z) (rows : list Order.t) :
  Forall (fun o => Order.id o < k) rows ->
  find (fun o => Order.id o =? k) rows = None.
Proof.
  induction 1 as [|o rows Ho _ IH]; simpl; [reflexivity|].
  replace (Order.id o =? k) with false by (symmetry; apply Z.eqb_neq; lia).
  exact IH.
Qed.

Lemma update_order_none_below (k : Z) (f : Order.t -> Order.t) (rows : list Order.t) :
  Forall (fun o => Order.id o < k) rows ->
  update_order k f rows = rows.
Proof.
  induction 1 as [|o rows Ho _ IH]; simpl; [reflexivity|].
  replace (Order.id o =? k) with false by (symmetry; apply Z.eqb_neq; lia).
  f_equal. exact IH.
Qed.

Lemma find_app_none {A} (f : A -> bool) (l1 l2 : list A) :
  find f l1 = None -> find f (l1 ++ l2) = find f l2.
Proof.
  induction l1 as [|x l1 IH]; simpl; [reflexivity|].
  destruct (f x); [discriminate | exact IH].
Qed.

Lemma filter_none_below (k : Z) (rows : list OrderItem.t) :
  Forall (fun oi => OrderItem.order_id oi < k) rows ->
  filter (fun oi => OrderItem.order_id oi =? k) rows = [].
Proof.
  induction 1 as [|oi rows Ho _ IH]; simpl; [reflexivity|].
  replace (OrderItem.order_id oi =? k) with false by (symmetry; apply Z.eqb_neq; lia).
  exact IH.
Qed.

Lemma filter_priced_rows (t : Tables) (oid : Z) (lines : list OrderItemCreate.t) :
  forall next,
    filter (fun oi => OrderItem.order_id oi =? oid) (priced_rows t oid next lines) =
    priced_rows t oid next lines.
Proof.
  induction lines as [|l rest IH]; intros next; simpl; [reflexivity|].
  rewrite Z.eqb_refl, IH. reflexivity.
Qed.

Lemma traverse_ok {A B} (f : A -> Result B) (g : A -> B) (l : list A) :
  Forall (fun x => f x = Ok (g x)) l -> traverse f l = Ok (map g l).
Proof.
  induction 1 as [|x l Hx _ IH]; simpl; [reflexivity|].
  rewrite Hx, IH. reflexivity.
Qed.

Lemma model_validate_ok (oi : OrderItem.t) :
  1 <= OrderItem.quantity oi -> 0 <= OrderItem.price_cents_each oi ->
  OrderItemRead_model_validate oi = Ok (OrderItemRead_of oi).
Proof.
  intros Hq Hp. unfold OrderItemRead_model_validate, OrderItemRead.validate. simpl.
  apply Z.leb_le in Hq, Hp. rewrite Hq, Hp. reflexivity.
Qed.

Lemma order_to_read_ok (o : Order.t) (rows : list OrderItem.t) :
  0 <= Order.total_cents o ->
  Forall (fun oi => 1 <= OrderItem.quantity oi /\ 0 <= OrderItem.price_cents_each oi) rows ->
  _order_to_read (o, rows) =
    Ok (OrderRead.mk (Order.id o) (Order.restaurant_id o) (Order.status o)
          (Order.total_cents o) (Order.created_at o) (map OrderItemRead_of rows)).
Proof.
  intros Ht Hrows. unfold _order_to_read.
  rewrite (traverse_ok _ OrderItemRead_of).
  - unfold OrderRead.validate. simpl. apply Z.leb_le in Ht. rewrite Ht. reflexivity.
  - revert Hrows. apply Forall_impl. intros oi [Hq Hp]. apply model_validate_ok; assumption.
Qed.

Lemma update_order_appended (k : Z) (f : Order.t -> Order.t) (rows : list Order.t)
    (o : Order.t) :
  Forall (fun x => Order.id x < k) rows -> Order.id o = k ->
  update_order k f (rows ++ [o]) = rows ++ [f o].
Proof.
  intros Hrows Ho. unfold update_order. rewrite map_app.
  fold (update_order k f rows). rewrite (update_order_none_below k f rows Hrows).
  simpl. rewrite Ho, Z.eqb_refl. reflexivity.
Qed.

Lemma menu_price_menu (t t' : Tables) (id : Z) :
  menu_items t' = menu_items t -> menu_price t' id = menu_price t id.
Proof. unfold menu_price, lookup_menu_item. intros ->. reflexivity. Qed.

Lemma lines_total_menu (t t' : Tables) (lines : list OrderItemCreate.t) :
  menu_items t' = menu_items t -> lines_total t' lines = lines_total t lines.
Proof.
  intros E. unfold lines_total.
  induction lines as [|l rest IH]; simpl; [reflexivity|].
  rewrite IH, (menu_price_menu t t' _ E). reflexivity.
Qed.

Lemma staged_lines_menu (t t' : Tables) (oid : Z) (lines : list OrderItemCreate.t) :
  menu_items t' = menu_items t ->
  map (staged_line t' oid) lines = map (staged_line t oid) lines.
Proof.
  intros E. apply map_ext. intros l. unfold staged_line.
  rewrite (menu_price_menu t t' _ E). reflexivity.
Qed.

Arguments _order_to_read order : simpl never.

Lemma unit_of_work_order (t0 : Tables) (oid total : Z) (lines : list OrderItemCreate.t) :
  unit_of_work (map (staged_line t0 oid) lines ++ [SetOrderTotalCents oid total]) =
  SetOrderTotalCents oid total :: map (staged_line t0 oid) lines.
Proof.
  unfold unit_of_work. rewrite !filter_app. simpl.
  assert (H1 : filter is_order_change (map (staged_line t0 oid) lines) = []).
  { induction lines as [|l rest IH]; simpl; [reflexivity | exact IH]. }
  assert (H2 : filter (fun p => negb (is_order_change p)) (map (staged_line t0 oid) lines) =
               map (staged_line t0 oid) lines).
  { clear H1. induction lines as [|l rest IH]; simpl; [reflexivity | rewrite IH; reflexivity]. }
  rewrite H1, H2, app_nil_r. reflexivity.
Qed.

Lemma create_order_finish_spec (now oid rid total : Z) (t0 cm : Tables)
    (a : list Restaurant.t) (b : list MenuItem.t) (c : list Order.t)
    (d : list OrderItem.t) (e : list Payment.t) (q : Sequences)
    (lines : list OrderItemCreate.t) :
  Forall (fun o => Order.id o < oid) c ->
  Forall (fun oi => OrderItem.order_id oi < oid) d ->
  0 <= total ->
  Forall (fun oi => 1 <= OrderItem.quantity oi /\ 0 <= OrderItem.price_cents_each oi)
    (priced_rows t0 oid (order_items_id_seq q) lines) ->
  forallb row_fits (priced_rows t0 oid (order_items_id_seq q) lines) = true ->
  int4 oid = true ->
  int4 total = true ->
  let rows := priced_rows t0 oid (order_items_id_seq q) lines in
  let final := mkTables a b (c ++ [Order.mk oid rid "created" total now]) (d ++ rows) e in
  create_order_finish oid total
    (mkSession cm (mkTables a b (c ++ [Order.mk oid rid "created" 0 now]) d e) q
       (map (staged_line t0 oid) lines) now) =
  (Ok (OrderRead.mk oid rid "created" total now (map OrderItemRead_of rows)),
   mkSession final final
     (mkSequences (restaurants_id_seq q) (menu_items_id_seq q) (orders_id_seq q)
        (order_items_id_seq q + Z.of_nat (List.length lines)) (payments_id_seq q))
     [] now).
Proof.
  intros Hc Hd Htotal Hrows Hfit Hoid Hint rows final.
  unfold create_order_finish, bind, db_add, db_commit, flush_session. simpl.
  rewrite unit_of_work_order, flush_all_cons. simpl flush_one.
  rewrite Hoid, Hint. simpl andb. cbv iota.
  unfold set_orders. simpl.
  rewrite (update_order_appended oid _ c (Order.mk oid rid "created" 0 now) Hc eq_refl).
  rewrite <- (app_nil_r (map (staged_line t0 oid) lines)).
  rewrite (flush_all_staged_lines now t0 oid lines [] a b _ d e q Hfit). simpl.
  unfold select_order_first. simpl. rewrite Hoid.
  rewrite (find_app_none _ c _ (find_none_below oid c Hc)). simpl.
  rewrite Z.eqb_refl. simpl.
  unfold load_items. simpl.
  rewrite filter_app, (filter_none_below oid d Hd), filter_priced_rows. simpl.
  unfold lift. rewrite order_to_read_ok; [reflexivity | exact Htotal | exact Hrows].
Qed.

(** When a row or the total does not fit, the commit fails and the
    transaction is rolled back. *)
Lemma create_order_finish_refused (now oid total : Z) (t0 cm t : Tables) (q : Sequences)
    (lines : list OrderItemCreate.t) :
  forallb row_fits (priced_rows t0 oid (order_items_id_seq q) lines) && int4 total = false ->
  create_order_finish oid total
    (mkSession cm t q (map (staged_line t0 oid) lines) now) =
    (Raise DataError, mkSession cm cm q [] now).
Proof.
  intros Hfit.
  unfold create_order_finish, bind, db_add, db_commit, flush_session. simpl.
  rewrite unit_of_work_order.
  destruct (flush_all now (SetOrderTotalCents oid total :: map (staged_line t0 oid) lines)
              (t, q)) as [r [t' q']] eqn:E.
  assert (Hr : r = Some DataError).
  { rewrite flush_all_cons in E. simpl flush_one in E.
    destruct (int4 oid && int4 total) eqn:Hupd.
    - apply andb_true_iff in Hupd. destruct Hupd as [_ Htot].
      rewrite Htot, andb_true_r in Hfit.
      pose proof (flush_all_staged_lines_refused now t0 oid lines []
                    (set_orders (update_order oid (Order.with_total_cents total)) t) q Hfit)
        as H.
      rewrite app_nil_r in H. rewrite E in H. exact H.
    - injection E as <- _ _. reflexivity. }
  subst r. reflexivity.
Qed.

(** ** The stored-row constraints, unpacked *)

Lemma schema_ok_rows (db : Database) :
  schema_ok db = true ->
  Forall (fun r => int4 (Restaurant.id r) = true) (restaurants (db_tables db)) /\
  Forall (fun m => 0 <= MenuItem.price_cents m /\
                   MenuItem.id m < menu_items_id_seq (db_seqs db) /\
                   int4 (MenuItem.id m) = true)
    (menu_items (db_tables db)) /\
  Forall (fun o => 0 <= Order.total_cents o /\ Order.id o < orders_id_seq (db_seqs db) /\
                   int4 (Order.id o) = true)
    (orders (db_tables db)) /\
  Forall (fun oi => 1 <= OrderItem.quantity oi /\ 0 <= OrderItem.price_cents_each oi /\
                    OrderItem.order_id oi < orders_id_seq (db_seqs db))
    (order_items (db_tables db)).
Proof.
  unfold schema_ok. intros H.
  apply andb_true_iff in H. destruct H as [H Hoi].
  apply andb_true_iff in H. destruct H as [H Ho].
  apply andb_true_iff in H. destruct H as [Hr Hm].
  rewrite forallb_forall in Hr, Hm, Ho, Hoi.
  repeat split; apply Forall_forall; intros x Hx.
  - exact (Hr x Hx).
  - specialize (Hm x Hx). apply andb_true_iff in Hm. destruct Hm as [H H3].
    apply andb_true_iff in H. destruct H as [H1 H2].
    apply Z.leb_le in H1. apply Z.ltb_lt in H2. repeat split; assumption.
  - specialize (Ho x Hx). apply andb_true_iff in Ho. destruct Ho as [H H3].
    apply andb_true_iff in H. destruct H as [H1 H2].
    apply Z.leb_le in H1. apply Z.ltb_lt in H2. repeat split; assumption.
  - specialize (Hoi x Hx). apply andb_true_iff in Hoi. destruct Hoi as [H H3].
    apply andb_true_iff in H. destruct H as [H1 H2].
    apply Z.leb_le in H1, H2. apply Z.ltb_lt in H3. repeat split; assumption.
Qed.

Lemma found_restaurant_in_range (db : Database) (id : Z) (r : Restaurant.t) :
  schema_ok db = true ->
  lookup_restaurant (db_tables db) id = Some r -> int4 id = true.
Proof.
  intros Hok Hf. destruct (schema_ok_rows db Hok) as [Hr _].
  unfold lookup_restaurant in Hf. apply find_some in Hf. destruct Hf as [Hin Hid].
  apply Z.eqb_eq in Hid. rewrite Forall_forall in Hr. rewrite <- Hid. exact (Hr r Hin).
Qed.

Lemma found_menu_item_in_range (db : Database) (id : Z) (m : MenuItem.t) :
  schema_ok db = true ->
  lookup_menu_item (db_tables db) id = Some m -> int4 id = true.
Proof.
  intros Hok Hf. destruct (schema_ok_rows db Hok) as [_ [Hm _]].
  unfold lookup_menu_item in Hf. apply find_some in Hf. destruct Hf as [Hin Hid].
  apply Z.eqb_eq in Hid. rewrite Forall_forall in Hm. rewrite <- Hid.
  destruct (Hm m Hin) as [_ [_ H]]. exact H.
Qed.

Lemma found_order_in_range (db : Database) (id : Z) (o : Order.t) :
  schema_ok db = true ->
  lookup_order (db_tables db) id = Some o -> int4 id = true.
Proof.
  intros Hok Hf. destruct (schema_ok_rows db Hok) as [_ [_ [Ho _]]].
  unfold lookup_order in Hf. apply find_some in Hf. destruct Hf as [Hin Hid].
  apply Z.eqb_eq in Hid. rewrite Forall_forall in Ho. rewrite <- Hid.
  destruct (Ho o Hin) as [_ [_ H]]. exact H.
Qed.

Lemma passing_lines_in_range (db : Database) (rid : Z) (lines : list OrderItemCreate.t) :
  schema_ok db = true ->
  Forall (line_passes (db_tables db) rid) lines ->
  Forall (line_passes_in_range (db_tables db) rid) lines.
Proof.
  intros Hok. apply Forall_impl. intros l Hl. split; [|exact Hl].
  destruct Hl as [m [Hm _]]. exact (found_menu_item_in_range db _ m Hok Hm).
Qed.

Lemma menu_price_nonneg (t : Tables) (id : Z) :
  Forall (fun m => 0 <= MenuItem.price_cents m) (menu_items t) ->
  0 <= menu_price t id.
Proof.
  intros H. unfold menu_price, lookup_menu_item.
  destruct (find _ (menu_items t)) as [m|] eqn:E; [|lia].
  apply find_some in E. destruct E as [Hin _].
  rewrite Forall_forall in H. exact (H m Hin).
Qed.

Lemma lines_total_nonneg (t : Tables) (lines : list OrderItemCreate.t) :
  Forall (fun m => 0 <= MenuItem.price_cents m) (menu_items t) ->
  Forall (fun l => 1 <= OrderItemCreate.quantity l) lines ->
  0 <= lines_total t lines.
Proof.
  intros Hm. unfold lines_total. induction 1 as [|l rest Hl _ IH]; simpl; [lia|].
  pose proof (menu_price_nonneg t (OrderItemCreate.menu_item_id l) Hm). nia.
Qed.

Lemma priced_rows_valid (t : Tables) (oid : Z) (lines : list OrderItemCreate.t) :
  Forall (fun m => 0 <= MenuItem.price_cents m) (menu_items t) ->
  Forall (fun l => 1 <= OrderItemCreate.quantity l) lines ->
  forall next,
    Forall (fun oi => 1 <= OrderItem.quantity oi /\ 0 <= OrderItem.price_cents_each oi)
      (priced_rows t oid next lines).
Proof.
  intros Hm. induction 1 as [|l rest Hl _ IH]; intros next; simpl; constructor.
  - simpl. split; [exact Hl | apply menu_price_nonneg; exact Hm].
  - apply IH.
Qed.

(** The whole of a successful [create_order]: the response and the
    database it leaves. *)
Lemma create_order_succeeds (now : Z) (payload : OrderCreate.t) (db : Database)
    (r : Restaurant.t) :
  schema_ok db = true ->
  lookup_restaurant (db_tables db) (OrderCreate.restaurant_id payload) = Some r ->
  Forall (line_passes (db_tables db) (OrderCreate.restaurant_id payload))
    (OrderCreate.items payload) ->
  Forall (fun l => 1 <= OrderItemCreate.quantity l) (OrderCreate.items payload) ->
  order_fits payload db = true ->
  let t := db_tables db in
  let q := db_seqs db in
  let rid := OrderCreate.restaurant_id payload in
  let oid := orders_id_seq q in
  let rows := priced_rows t oid (order_items_id_seq q) (OrderCreate.items payload) in
  let total := lines_total t (OrderCreate.items payload) in
  get_db now (create_order payload) db =
    (Ok (OrderRead.mk oid rid "created" total now (map OrderItemRead_of rows)),
     mkDatabase
       (mkTables (restaurants t) (menu_items t)
          (orders t ++ [Order.mk oid rid "created" total now])
          (order_items t ++ rows) (payments t))
       (mkSequences (restaurants_id_seq q) (menu_items_id_seq q) (oid + 1)
          (order_items_id_seq q + Z.of_nat (List.length (OrderCreate.items payload)))
          (payments_id_seq q))).
Proof.
  intros Hok Hr Hpass Hqty Hfit t q rid oid rows total.
  destruct (schema_ok_rows db Hok) as [_ [Hm [Ho Hoi]]].
  assert (Hprices : Forall (fun m => 0 <= MenuItem.price_cents m) (menu_items t)).
  { revert Hm. apply Forall_impl. intros m [H _]. exact H. }
  pose proof (found_restaurant_in_range db _ r Hok Hr) as Hi.
  pose proof (passing_lines_in_range db _ _ Hok Hpass) as Hin.
  unfold order_fits in Hfit.
  apply andb_true_iff in Hfit. destruct Hfit as [Hfit Htot].
  apply andb_true_iff in Hfit. destruct Hfit as [Hk Hrows].
  unfold get_db. rewrite (create_order_restaurant_found now payload db r Hi Hr Hk).
  set (s1 := session_with_new_order now (OrderCreate.restaurant_id payload) db).
  assert (Hmenu : menu_items (working s1) = menu_items t) by reflexivity.
  rewrite create_order_lines_pass.
  2:{ revert Hin. apply Forall_impl. intros l [Hl1 Hl2]. split; [exact Hl1|].
      revert Hl2. apply line_passes_menu. exact Hmenu. }
  rewrite (lines_total_menu t (working s1) _ Hmenu).
  rewrite (staged_lines_menu t (working s1) _ _ Hmenu).
  subst s1 t q. destruct db as [[a b c d e] q]. simpl in *.
  unfold session_with_new_order, set_orders. simpl.
  rewrite create_order_finish_spec.
  - reflexivity.
  - revert Ho. apply Forall_impl. intros o [_ [H _]]. exact H.
  - revert Hoi. apply Forall_impl. intros oi [_ [_ H]]. exact H.
  - apply lines_total_nonneg; assumption.
  - apply priced_rows_valid; assumption.
  - exact Hrows.
  - exact Hk.
  - exact Htot.
Qed.

(** The store refuses an order that does not fit: the request raises
    [DataError] and the tables are as they were. *)
Lemma create_order_store_refuses (now : Z) (payload : OrderCreate.t) (db : Database)
    (r : Restaurant.t) :
  schema_ok db = true ->
  lookup_restaurant (db_tables db) (OrderCreate.restaurant_id payload) = Some r ->
  Forall (line_passes (db_tables db) (OrderCreate.restaurant_id payload))
    (OrderCreate.items payload) ->
  order_fits payload db = false ->
  exists q',
    get_db now (create_order payload) db = (Raise DataError, mkDatabase (db_tables db) q') /\
    (q' = db_seqs db \/ q' = next_order_id (db_seqs db)).
Proof.
  intros Hok Hr Hpass Hfit.
  pose proof (found_restaurant_in_range db _ r Hok Hr) as Hi.
  pose proof (passing_lines_in_range db _ _ Hok Hpass) as Hin.
  destruct (int4 (orders_id_seq (db_seqs db))) eqn:Hk.
  2:{ rewrite (create_order_no_key now payload db r Hi Hr Hk).
      exists (db_seqs db). split; [destruct db; reflexivity | left; reflexivity]. }
  unfold order_fits in Hfit. rewrite Hk in Hfit. simpl in Hfit.
  unfold get_db. rewrite (create_order_restaurant_found now payload db r Hi Hr Hk).
  set (s1 := session_with_new_order now (OrderCreate.restaurant_id payload) db).
  assert (Hmenu : menu_items (working s1) = menu_items (db_tables db)) by reflexivity.
  rewrite create_order_lines_pass.
  2:{ revert Hin. apply Forall_impl. intros l [Hl1 Hl2]. split; [exact Hl1|].
      revert Hl2. apply line_passes_menu. exact Hmenu. }
  rewrite (lines_total_menu (db_tables db) (working s1) _ Hmenu).
  rewrite (staged_lines_menu (db_tables db) (working s1) _ _ Hmenu).
  subst s1. unfold session_with_new_order. simpl.
  rewrite (create_order_finish_refused now (orders_id_seq (db_seqs db))
             (lines_total (db_tables db) (OrderCreate.items payload))
             (db_tables db) (db_tables db)
             (set_orders
                (fun rows => rows ++
                   [Order.mk (orders_id_seq (db_seqs db)) (OrderCreate.restaurant_id payload)
                      "created" 0 now]) (db_tables db))
             (next_order_id (db_seqs db)) (OrderCreate.items payload) Hfit).
  exists (next_order_id (db_seqs db)). unfold close_session. simpl.
  split; [reflexivity | right; reflexivity].
Qed.

Lemma items_total_priced_rows (t : Tables) (oid : Z) (lines : list OrderItemCreate.t) :
  forall next,
    items_total (map OrderItemRead_of (priced_rows t oid next lines)) = lines_total t lines.
Proof.
  unfold items_total, lines_total.
  induction lines as [|l rest IH]; intros next; simpl; [reflexivity|].
  rewrite IH. reflexivity.
Qed.

Lemma priced_rows_same_lines (t : Tables) (oid : Z) (lines : list OrderItemCreate.t) :
  forall next,
    map (fun i => (OrderItemRead.menu_item_id i, OrderItemRead.quantity i))
      (map OrderItemRead_of (priced_rows t oid next lines)) =
    map (fun l => (OrderItemCreate.menu_item_id l, OrderItemCreate.quantity l)) lines.
Proof.
  induction lines as [|l rest IH]; intros next; simpl; [reflexivity|].
  rewrite IH. reflexivity.
Qed.

Lemma priced_rows_snapshot (t : Tables) (rid oid : Z) (lines : list OrderItemCreate.t) :
  Forall (line_passes t rid) lines ->
  forall next,
    Forall2
      (fun l i =>
         exists m, lookup_menu_item t (OrderItemCreate.menu_item_id l) = Some m /\
                   OrderItemRead.price_cents_each i = MenuItem.price_cents m)
      lines (map OrderItemRead_of (priced_rows t oid next lines)).
Proof.
  induction 1 as [|l rest [m [Hm _]] _ IH]; intros next; simpl; constructor.
  - exists m. split; [exact Hm|]. simpl. unfold menu_price. rewrite Hm. reflexivity.
  - apply IH.
Qed.

Lemma validate_quantities (payload : OrderCreate.t) :
  OrderCreate.validate payload = true ->
  OrderCreate.items payload <> [] /\
  Forall (fun l => 1 <= OrderItemCreate.quantity l) (OrderCreate.items payload).
Proof.
  unfold OrderCreate.validate. intros H. apply andb_true_iff in H. destruct H as [Hn Hq].
  split.
  - intros E. rewrite E in Hn. simpl in Hn. discriminate.
  - apply Forall_forall. intros l Hl. rewrite forallb_forall in Hq.
    specialize (Hq l Hl). unfold OrderItemCreate.validate in Hq. apply Z.leb_le. exact Hq.
Qed.

Lemma priced_rows_order_id (t : Tables) (oid : Z) (lines : list OrderItemCreate.t) :
  forall next,
    Forall (fun oi => OrderItem.order_id oi = oid) (priced_rows t oid next lines).
Proof.
  induction lines as [|l rest IH]; intros next; simpl; constructor.
  - reflexivity.
  - apply IH.
Qed.

Lemma Forall_or_not {A} (P : A -> Prop) (l : list A) :
  (forall x, P x \/ ~ P x) -> Forall P l \/ ~ Forall P l.
Proof.
  intros Hdec. induction l as [|x rest IH].
  - left. constructor.
  - destruct (Hdec x) as [Hx|Hx].
    + destruct IH as [IH|IH].
      * left. constructor; assumption.
      * right. intros H. apply IH. inversion H. assumption.
    + right. intros H. apply Hx. inversion H. assumption.
Qed.

(** A request that [create_order] answers passed the schema, named an
    existing restaurant and had only passing lines. *)
Lemma createOrder_ok_inv (now : Z) (payload : OrderCreate.t) (db db' : Database)
    (order : OrderRead.t) :
  createOrder now payload db = (Ok order, db') ->
  OrderCreate.validate payload = true /\
  (exists r, lookup_restaurant (db_tables db) (OrderCreate.restaurant_id payload) = Some r) /\
  Forall (line_passes (db_tables db) (OrderCreate.restaurant_id payload))
    (OrderCreate.items payload).
Proof.
  unfold createOrder, Body. intros E.
  destruct (OrderCreate.validate payload) eqn:Hv.
  2:{ unfold get_db, raise in E. simpl in E. discriminate. }
  split; [reflexivity|].
  assert (Hpass : Forall (line_passes (db_tables db) (OrderCreate.restaurant_id payload))
                    (OrderCreate.items payload)).
  { destruct (Forall_or_not (line_passes (db_tables db) (OrderCreate.restaurant_id payload))
                  (OrderCreate.items payload)) as [H|H].
    - intros l. destruct (line_passes_or_fails (db_tables db)
                            (OrderCreate.restaurant_id payload) l) as [H|H]; [left; exact H|].
      right. intros [m [Hm [Hr Ha]]].
      destruct H as [[Hn | [m' [Hm' Hr']]] | [m' [Hm' [_ Ha']]]]; congruence.
    - exact H.
    - destruct (create_order_refused now payload db H) as [e [q [E' _]]].
      rewrite E' in E. discriminate. }
  split; [|exact Hpass].
  destruct (lookup_restaurant (db_tables db) (OrderCreate.restaurant_id payload))
    as [r|] eqn:Hr; [exists r; reflexivity|].
  destruct (int4 (OrderCreate.restaurant_id payload)) eqn:Hi.
  - rewrite (create_order_restaurant_missing now payload db Hi Hr) in E. discriminate.
  - rewrite (create_order_restaurant_out_of_range now payload db Hi) in E. discriminate.
Qed.

(** C2: for every [create_order] call that succeeds, the total of the
    returned order is the sum of [price_cents_each * quantity] over its
    items, the items come in the order of the submitted lines, and each
    carries the price the menu item had when the order was created.  The
    call succeeds when the restaurant exists, the line list is not empty,
    every line names an available item of that restaurant with a quantity of
    at least 1, and the order fits the store (a key is left for it and its
    quantities, prices and total are 32-bit integers); when it does not fit,
    the store raises [DataError] and no row is written. *)
Theorem create_order_total_is_sum_of_lines
    (now : Z) (payload : OrderCreate.t) (db : Database) :
  schema_ok db = true ->
  (forall order db',
     createOrder now payload db = (Ok order, db') ->
     OrderRead.total_cents order = items_total (OrderRead.items order) /\
     map (fun i => (OrderItemRead.menu_item_id i, OrderItemRead.quantity i))
       (OrderRead.items order) =
     map (fun l => (OrderItemCreate.menu_item_id l, OrderItemCreate.quantity l))
       (OrderCreate.items payload) /\
     Forall2
       (fun l i =>
          exists m, lookup_menu_item (db_tables db) (OrderItemCreate.menu_item_id l) = Some m /\
                    OrderItemRead.price_cents_each i = MenuItem.price_cents m)
       (OrderCreate.items payload) (OrderRead.items order)) /\
  (OrderCreate.validate payload = true ->
   (exists r, lookup_restaurant (db_tables db) (OrderCreate.restaurant_id payload) = Some r) ->
   Forall (line_passes (db_tables db) (OrderCreate.restaurant_id payload))
     (OrderCreate.items payload) ->
   if order_fits payload db
   then exists order db', createOrder now payload db = (Ok order, db')
   else exists db', createOrder now payload db = (Raise DataError, db') /\
                    db_tables db' = db_tables db).
Proof.
  intros Hok. split.
  - intros order db' E.
    destruct (createOrder_ok_inv now payload db db' order E) as [Hv [[r Hr] Hpass]].
    destruct (validate_quantities payload Hv) as [_ Hqty].
    unfold createOrder, Body in E. rewrite Hv in E.
    destruct (order_fits payload db) eqn:Hfit.
    + rewrite (create_order_succeeds now payload db r Hok Hr Hpass Hqty Hfit) in E.
      injection E as <- _. simpl.
      split; [|split].
      * symmetry. apply items_total_priced_rows.
      * apply priced_rows_same_lines.
      * eapply priced_rows_snapshot. exact Hpass.
    + destruct (create_order_store_refuses now payload db r Hok Hr Hpass Hfit)
        as [q' [E' _]].
      rewrite E' in E. discriminate.
  - intros Hv [r Hr] Hpass.
    destruct (validate_quantities payload Hv) as [_ Hqty].
    unfold createOrder, Body. rewrite Hv.
    destruct (order_fits payload db) eqn:Hfit.
    + rewrite (create_order_succeeds now payload db r Hok Hr Hpass Hqty Hfit).
      eexists. eexists. reflexivity.
    + destruct (create_order_store_refuses now payload db r Hok Hr Hpass Hfit)
        as [q' [E' _]].
      rewrite E'. eexists. split; reflexivity.
Qed.

Lemma create_order_total_is_sum_of_lines_witness :
  (exists order db',
     createOrder 10 (OrderCreate.mk 1 [OrderItemCreate.mk 1 2]) scenario_db =
       (Ok order, db')) /\
  (forall order db',
     createOrder 10 (OrderCreate.mk 1 [OrderItemCreate.mk 1 2]) scenario_db =
       (Ok order, db') ->
     OrderRead.total_cents order = items_total (OrderRead.items order) /\
     map (fun i => (OrderItemRead.menu_item_id i, OrderItemRead.quantity i))
       (OrderRead.items order) = [(1, 2)] /\
     Forall2
       (fun l i =>
          exists m, lookup_menu_item (db_tables scenario_db)
                      (OrderItemCreate.menu_item_id l) = Some m /\
                    OrderItemRead.price_cents_each i = MenuItem.price_cents m)
       [OrderItemCreate.mk 1 2] (OrderRead.items order)).
Proof.
  destruct (create_order_total_is_sum_of_lines 10
              (OrderCreate.mk 1 [OrderItemCreate.mk 1 2]) scenario_db eq_refl) as [H1 H2].
  split.
  - apply H2.
    + reflexivity.
    + exists (Restaurant.mk 1 "R1" None true 0). reflexivity.
    + constructor; [|constructor].
      exists (MenuItem.mk 1 1 "M1" None 500 true 0). repeat split; reflexivity.
  - exact H1.
Defined.

(** The order of the scenario, as [create_order] answers it. *)
Example create_order_scenario :
  fst (createOrder 10 (OrderCreate.mk 1 [OrderItemCreate.mk 1 2]) scenario_db) =
  Ok (OrderRead.mk 1 1 "created" 1000 10 [OrderItemRead.mk 1 1 2 500]).
Proof. vm_compute. reflexivity. Qed.

(** A total past the 32-bit range is refused at the commit, and the
    database is left with no new row. *)
Example create_order_total_out_of_range :
  let (res, db') :=
    createOrder 10 (OrderCreate.mk 1 [OrderItemCreate.mk 1 5000000]) scenario_db in
  res = Raise DataError /\ db_tables db' = db_tables scenario_db.
Proof. vm_compute. split; reflexivity. Qed.

(** ** Status updates *)

Lemma is_valid_status_In (s : string) :
  is_valid_status s = true <-> In s _VALID_STATUSES.
Proof.
  unfold is_valid_status. rewrite existsb_exists. split.
  - intros [x [Hin Heq]]. apply String.eqb_eq in Heq. subst x. exact Hin.
  - intros Hin. exists s. split; [exact Hin | apply String.eqb_refl].
Qed.

Lemma is_valid_status_not_In (s : string) :
  ~ In s _VALID_STATUSES -> is_valid_status s = false.
Proof.
  intros H. destruct (is_valid_status s) eqn:E; [|reflexivity].
  apply is_valid_status_In in E. contradiction.
Qed.

(** Each recognised status fits the status column as it is. *)
Lemma valid_status_stored (st : string) :
  In st _VALID_STATUSES -> varchar 40 st = Ok st.
Proof.
  simpl. intros [H|[H|[H|[H|[H|[H|H]]]]]]; try (subst st; reflexivity). contradiction.
Qed.

Lemma find_order_id (rows : list Order.t) (k : Z) (o : Order.t) :
  find (fun x => Order.id x =? k) rows = Some o -> Order.id o = k.
Proof.
  intros H. apply find_some in H. destruct H as [_ H]. apply Z.eqb_eq. exact H.
Qed.

(** After [UPDATE ... WHERE id = k], looking up [k] finds the updated row. *)
Lemma find_update_order (k : Z) (f : Order.t -> Order.t) (rows : list Order.t) :
  (forall o, Order.id (f o) = Order.id o) ->
  find (fun x => Order.id x =? k) (update_order k f rows) =
  option_map f (find (fun x => Order.id x =? k) rows).
Proof.
  intros Hf. induction rows as [|x rows IH]; simpl; [reflexivity|].
  destruct (Order.id x =? k) eqn:E.
  - simpl. rewrite Hf, E. reflexivity.
  - simpl. rewrite E. exact IH.
Qed.

Lemma with_status_same (o : Order.t) : Order.with_status (Order.status o) o = o.
Proof. destruct o. reflexivity. Qed.

(** The items an order's response shows. *)
Lemma order_items_valid (db : Database) (k : Z) :
  schema_ok db = true ->
  Forall (fun oi => 1 <= OrderItem.quantity oi /\ 0 <= OrderItem.price_cents_each oi)
    (filter (fun oi => OrderItem.order_id oi =? k) (order_items (db_tables db))).
Proof.
  intros Hok. destruct (schema_ok_rows db Hok) as [_ [_ [_ Hoi]]].
  apply Forall_forall. intros oi Hin. apply filter_In in Hin. destruct Hin as [Hin _].
  rewrite Forall_forall in Hoi. destruct (Hoi oi Hin) as [H1 [H2 _]]. split; assumption.
Qed.

Lemma order_total_nonneg (db : Database) (k : Z) (o : Order.t) :
  schema_ok db = true ->
  lookup_order (db_tables db) k = Some o -> 0 <= Order.total_cents o.
Proof.
  intros Hok Hf. destruct (schema_ok_rows db Hok) as [_ [_ [Ho _]]].
  apply find_some in Hf. destruct Hf as [Hin _].
  rewrite Forall_forall in Ho. destruct (Ho o Hin) as [H _]. exact H.
Qed.

(** A refused status leaves the whole database as it was. *)
Lemma update_delivery_status_refused (now order_id : Z) (payload : DeliveryUpdate.t)
    (db : Database) :
  ~ In (DeliveryUpdate.status payload) _VALID_STATUSES ->
  updateDeliveryStatus now order_id payload db =
    (Raise (HTTPException 400 invalid_status_detail), db).
Proof.
  intros H. unfold updateDeliveryStatus, get_db, update_delivery_status.
  rewrite (is_valid_status_not_In _ H). simpl.
  rewrite close_open_session. reflexivity.
Qed.

Lemma update_delivery_status_missing (now order_id : Z) (payload : DeliveryUpdate.t)
    (db : Database) :
  In (DeliveryUpdate.status payload) _VALID_STATUSES ->
  int4 order_id = true ->
  lookup_order (db_tables db) order_id = None ->
  updateDeliveryStatus now order_id payload db =
    (Raise (HTTPException 404 "Order not found"), db).
Proof.
  intros Hv Hi Hn. unfold updateDeliveryStatus, get_db, update_delivery_status.
  apply is_valid_status_In in Hv. rewrite Hv. simpl.
  unfold bind, select_order_first. simpl. rewrite Hi.
  unfold lookup_order in Hn. rewrite Hn. simpl.
  rewrite close_open_session. reflexivity.
Qed.

(** An order id that is no 32-bit integer is refused by the store. *)
Lemma update_delivery_status_out_of_range (now order_id : Z) (payload : DeliveryUpdate.t)
    (db : Database) :
  In (DeliveryUpdate.status payload) _VALID_STATUSES ->
  int4 order_id = false ->
  updateDeliveryStatus now order_id payload db = (Raise DataError, db).
Proof.
  intros Hv Hi. unfold updateDeliveryStatus, get_db, update_delivery_status.
  apply is_valid_status_In in Hv. rewrite Hv. simpl.
  unfold bind, select_order_first. simpl. rewrite Hi.
  rewrite close_open_session. reflexivity.
Qed.

Lemma update_delivery_status_succeeds (now order_id : Z) (payload : DeliveryUpdate.t)
    (db : Database) (o : Order.t) :
  schema_ok db = true ->
  In (DeliveryUpdate.status payload) _VALID_STATUSES ->
  lookup_order (db_tables db) order_id = Some o ->
  updateDeliveryStatus now order_id payload db =
    (Ok (OrderRead.mk order_id (Order.restaurant_id o) (DeliveryUpdate.status payload)
           (Order.total_cents o) (Order.created_at o)
           (map OrderItemRead_of
              (filter (fun oi => OrderItem.order_id oi =? order_id)
                 (order_items (db_tables db))))),
     mkDatabase
       (set_orders (update_order order_id (Order.with_status (DeliveryUpdate.status payload)))
          (db_tables db))
       (db_seqs db)).
Proof.
  intros Hok Hv Hf.
  pose proof (order_items_valid db order_id Hok) as Hitems.
  pose proof (order_total_nonneg db order_id o Hok Hf) as Htotal.
  pose proof (found_order_in_range db order_id o Hok Hf) as Hi.
  pose proof (valid_status_stored _ Hv) as Hst.
  unfold lookup_order in Hf. pose proof (find_order_id _ _ _ Hf) as Hid.
  unfold updateDeliveryStatus, get_db, update_delivery_status.
  apply is_valid_status_In in Hv. rewrite Hv. simpl.
  unfold bind at 1. unfold select_order_first at 1. simpl. rewrite Hi.
  rewrite Hf. simpl. rewrite Hid.
  unfold bind, db_add, db_commit, db_refresh_order, flush_session. simpl.
  rewrite Hi, Hst. simpl.
  rewrite find_update_order by reflexivity. rewrite Hf. simpl.
  unfold lift, load_items. simpl. rewrite Hid.
  rewrite order_to_read_ok by assumption. simpl. rewrite Hid.
  reflexivity.
Qed.

Lemma get_order_found (now order_id : Z) (db : Database) (o : Order.t) :
  schema_ok db = true ->
  lookup_order (db_tables db) order_id = Some o ->
  getOrder now order_id db =
    (Ok (OrderRead.mk order_id (Order.restaurant_id o) (Order.status o)
           (Order.total_cents o) (Order.created_at o)
           (map OrderItemRead_of
              (filter (fun oi => OrderItem.order_id oi =? order_id)
                 (order_items (db_tables db))))),
     db).
Proof.
  intros Hok Hf.
  pose proof (order_items_valid db order_id Hok) as Hitems.
  pose proof (order_total_nonneg db order_id o Hok Hf) as Htotal.
  pose proof (found_order_in_range db order_id o Hok Hf) as Hi.
  unfold lookup_order in Hf. pose proof (find_order_id _ _ _ Hf) as Hid.
  unfold getOrder, get_db, get_order, bind, select_order_first. simpl. rewrite Hi.
  rewrite Hf. simpl. unfold lift, load_items. rewrite Hid.
  rewrite order_to_read_ok by assumption. simpl. rewrite Hid.
  rewrite close_open_session. reflexivity.
Qed.

Lemma forallb_update_order (p : Order.t -> bool) (k : Z) (f : Order.t -> Order.t)
    (rows : list Order.t) :
  (forall o, p (f o) = p o) ->
  forallb p (update_order k f rows) = forallb p rows.
Proof.
  intros Hp. induction rows as [|x rows IH]; simpl; [reflexivity|].
  rewrite IH. destruct (Order.id x =? k); [rewrite Hp|]; reflexivity.
Qed.

(** Overwriting a status keeps the stored-row constraints. *)
Lemma schema_ok_update_status (db : Database) (k : Z) (st : string) :
  schema_ok db = true ->
  schema_ok (mkDatabase (set_orders (update_order k (Order.with_status st)) (db_tables db))
               (db_seqs db)) = true.
Proof.
  unfold schema_ok. simpl. intros H.
  rewrite forallb_update_order by reflexivity. exact H.
Qed.

Lemma bogus_not_valid : ~ In "bogus" _VALID_STATUSES.
Proof.
  simpl. intros [H|[H|[H|[H|[H|[H|H]]]]]]; try discriminate H. exact H.
Qed.

(** C5: for an existing order and any of the six recognised statuses,
    [update_delivery_status] succeeds and overwrites the stored status,
    whatever the status was before (delivered -> created included); the
    response and a following [get_order] show the new status. *)
Theorem update_delivery_status_overwrites_any_status
    (now now' order_id : Z) (payload : DeliveryUpdate.t) (db : Database) (o : Order.t) :
  schema_ok db = true ->
  In (DeliveryUpdate.status payload) _VALID_STATUSES ->
  lookup_order (db_tables db) order_id = Some o ->
  exists r db',
    updateDeliveryStatus now order_id payload db = (Ok r, db') /\
    OrderRead.id r = order_id /\
    OrderRead.status r = DeliveryUpdate.status payload /\
    lookup_order (db_tables db') order_id =
      Some (Order.with_status (DeliveryUpdate.status payload) o) /\
    getOrder now' order_id db' = (Ok r, db').
Proof.
  intros Hok Hv Hf.
  rewrite (update_delivery_status_succeeds now order_id payload db o Hok Hv Hf).
  eexists. eexists. split; [reflexivity|]. simpl.
  assert (Hf' : lookup_order
                  (set_orders
                     (update_order order_id (Order.with_status (DeliveryUpdate.status payload)))
                     (db_tables db)) order_id =
                Some (Order.with_status (DeliveryUpdate.status payload) o)).
  { unfold lookup_order. simpl. rewrite find_update_order by reflexivity.
    unfold lookup_order in Hf. rewrite Hf. reflexivity. }
  repeat split.
  - exact Hf'.
  - rewrite (get_order_found now' order_id _ _
               (schema_ok_update_status db order_id _ Hok) Hf').
    reflexivity.
Qed.

Lemma update_delivery_status_overwrites_any_status_witness :
  exists r db',
    updateDeliveryStatus 20 1 (DeliveryUpdate.mk "created") delivered_db = (Ok r, db') /\
    OrderRead.id r = 1 /\
    OrderRead.status r = "created" /\
    lookup_order (db_tables db') 1 = Some (Order.mk 1 1 "created" 1000 10) /\
    getOrder 21 1 db' = (Ok r, db').
Proof.
  apply (update_delivery_status_overwrites_any_status 20 21 1 (DeliveryUpdate.mk "created")
           delivered_db (Order.mk 1 1 "delivered" 1000 10)).
  - reflexivity.
  - simpl. left. reflexivity.
  - reflexivity.
Defined.

(** C6: with a status string outside the six recognised values,
    [update_delivery_status] answers 400 "Invalid status. ..." and the
    database, the order's status included, is exactly what it was. *)
Theorem update_delivery_status_invalid_status_changes_nothing
    (now order_id : Z) (payload : DeliveryUpdate.t) (db : Database) :
  ~ In (DeliveryUpdate.status payload) _VALID_STATUSES ->
  fst (updateDeliveryStatus now order_id payload db) =
    Raise (HTTPException 400 invalid_status_detail) /\
  snd (updateDeliveryStatus now order_id payload db) = db /\
  lookup_order (db_tables (snd (updateDeliveryStatus now order_id payload db))) order_id =
    lookup_order (db_tables db) order_id.
Proof.
  intros H. rewrite (update_delivery_status_refused now order_id payload db H).
  simpl. auto.
Qed.

Lemma update_delivery_status_invalid_status_changes_nothing_witness :
  fst (updateDeliveryStatus 20 1 (DeliveryUpdate.mk "bogus") delivered_db) =
    Raise (HTTPException 400 invalid_status_detail) /\
  snd (updateDeliveryStatus 20 1 (DeliveryUpdate.mk "bogus") delivered_db) = delivered_db /\
  lookup_order
    (db_tables (snd (updateDeliveryStatus 20 1 (DeliveryUpdate.mk "bogus") delivered_db))) 1 =
    lookup_order (db_tables delivered_db) 1.
Proof.
  apply (update_delivery_status_invalid_status_changes_nothing 20 1
           (DeliveryUpdate.mk "bogus") delivered_db).
  exact bogus_not_valid.
Defined.

(** C9: [update_delivery_status] checks the status before it looks for
    the order: with an unrecognised status and an order id that matches no
    order the answer is 400 (invalid status), not 404, whatever the order
    id; the 404 is what a recognised status gets for the same missing order
    when the id is one the store can look up, and an id outside the 32-bit
    range is refused by the store instead. *)
Theorem update_delivery_status_checks_status_before_order
    (now order_id : Z) (payload : DeliveryUpdate.t) (db : Database) :
  lookup_order (db_tables db) order_id = None ->
  (~ In (DeliveryUpdate.status payload) _VALID_STATUSES ->
   fst (updateDeliveryStatus now order_id payload db) =
     Raise (HTTPException 400 invalid_status_detail) /\
   fst (updateDeliveryStatus now order_id payload db) <>
     Raise (HTTPException 404 "Order not found")) /\
  (In (DeliveryUpdate.status payload) _VALID_STATUSES ->
   fst (updateDeliveryStatus now order_id payload db) =
     if int4 order_id then Raise (HTTPException 404 "Order not found")
     else Raise DataError).
Proof.
  intros Hn. split.
  - intros H. rewrite (update_delivery_status_refused now order_id payload db H).
    simpl. split; [reflexivity | discriminate].
  - intros H. destruct (int4 order_id) eqn:Hi.
    + rewrite (update_delivery_status_missing now order_id payload db H Hi Hn).
      reflexivity.
    + rewrite (update_delivery_status_out_of_range now order_id payload db H Hi).
      reflexivity.
Qed.

Lemma update_delivery_status_checks_status_before_order_witness :
  (fst (updateDeliveryStatus 20 5 (DeliveryUpdate.mk "bogus") delivered_db) =
     Raise (HTTPException 400 invalid_status_detail) /\
   fst (updateDeliveryStatus 20 5 (DeliveryUpdate.mk "bogus") delivered_db) <>
     Raise (HTTPException 404 "Order not found")) /\
  fst (updateDeliveryStatus 20 5 (DeliveryUpdate.mk "paid") delivered_db) =
    Raise (HTTPException 404 "Order not found").
Proof.
  split.
  - apply (proj1 (update_delivery_status_checks_status_before_order 20 5
                    (DeliveryUpdate.mk "bogus") delivered_db eq_refl)).
    exact bogus_not_valid.
  - apply (proj2 (update_delivery_status_checks_status_before_order 20 5
                    (DeliveryUpdate.mk "paid") delivered_db eq_refl)).
    simpl. right. left. reflexivity.
Defined.

(** The status is checked first also for an order id the store cannot
    look up. *)
Example update_delivery_status_bogus_out_of_range :
  fst (updateDeliveryStatus 20 2147483648 (DeliveryUpdate.mk "bogus") delivered_db) =
    Raise (HTTPException 400 invalid_status_detail) /\
  fst (updateDeliveryStatus 20 2147483648 (DeliveryUpdate.mk "paid") delivered_db) =
    Raise DataError.
Proof. split; vm_compute; reflexivity. Qed.

(** ** Payments *)

(** The whole of [create_payment] on an existing order, for a payment
    the store accepts. *)
Lemma create_payment_recorded (now : Z) (payload : PaymentCreate.t) (db : Database)
    (o : Order.t) :
  lookup_order (db_tables db) (PaymentCreate.order_id payload) = Some o ->
  payment_fits payload db = true ->
  let t := db_tables db in
  let q := db_seqs db in
  let covered := PaymentCreate.amount_cents payload >=? Order.total_cents o in
  get_db now (create_payment payload) db =
    (Ok (PaymentResult.mk "ok" (PaymentCreate.order_id payload)
           (status_after_payment (PaymentCreate.amount_cents payload) o)),
     mkDatabase
       (mkTables (restaurants t) (menu_items t)
          (if covered
           then update_order (PaymentCreate.order_id payload) (Order.with_status "paid")
                  (orders t)
           else orders t)
          (order_items t)
          (payments t ++
             [Payment.mk (payments_id_seq q) (PaymentCreate.order_id payload)
                (stored_provider payload) (PaymentCreate.amount_cents payload) now]))
       (next_payment_id q)).
Proof.
  intros Hf Hfit t q covered. subst t q covered.
  unfold payment_fits in Hfit.
  apply andb_true_iff in Hfit. destruct Hfit as [Hfit Hprov].
  apply andb_true_iff in Hfit. destruct Hfit as [Hfit Hamt].
  apply andb_true_iff in Hfit. destruct Hfit as [Hkey Hoid].
  unfold stored_provider.
  destruct (varchar 40 (PaymentCreate.provider payload)) as [stored|] eqn:Hv;
    [|discriminate Hprov].
  unfold lookup_order in Hf. pose proof (find_order_id _ _ _ Hf) as Hid.
  destruct db as [[a b c d e] q]. simpl in *.
  unfold get_db, create_payment.
  unfold bind at 1. unfold select_order_first at 1. simpl. rewrite Hoid, Hf. simpl.
  unfold status_after_payment.
  destruct (PaymentCreate.amount_cents payload >=? Order.total_cents o) eqn:Hge.
  - unfold bind, db_add, db_commit, load_expired_order, flush_session, ret. simpl.
    rewrite Hid, Hoid. simpl. rewrite Hkey, Hoid, Hamt, Hv. simpl.
    rewrite find_update_order by reflexivity. rewrite Hf. simpl.
    rewrite Hid. reflexivity.
  - unfold bind, db_add, db_commit, load_expired_order, flush_session, ret. simpl.
    rewrite Hkey, Hoid, Hamt, Hv. simpl.
    rewrite Hid, Hoid, Hf. simpl. rewrite Hid. reflexivity.
Qed.

Lemma flush_one_payment_refused (now oid amount : Z) (provider : string) (t : Tables)
    (q : Sequences) :
  int4 (payments_id_seq q) && int4 oid && int4 amount && is_ok (varchar 40 provider) = false ->
  flush_one now (NewPayment oid provider amount) (t, q) = Raise DataError.
Proof.
  intros H. simpl.
  destruct (int4 (payments_id_seq q) && int4 oid && int4 amount); [|reflexivity].
  simpl in H. destruct (varchar 40 provider) as [stored|e] eqn:E; [discriminate H|].
  rewrite (varchar_raises _ _ _ E). reflexivity.
Qed.

Lemma flush_one_paid (now oid : Z) (t : Tables) (q : Sequences) :
  int4 oid = true ->
  flush_one now (SetOrderStatus oid "paid") (t, q) =
    Ok (set_orders (update_order oid (Order.with_status "paid")) t, q).
Proof. intros H. simpl. rewrite H. reflexivity. Qed.

(** A payment the store does not accept: the commit raises [DataError]
    and the database is as it was, the order's status included. *)
Lemma create_payment_refused (now : Z) (payload : PaymentCreate.t) (db : Database)
    (o : Order.t) :
  lookup_order (db_tables db) (PaymentCreate.order_id payload) = Some o ->
  payment_fits payload db = false ->
  get_db now (create_payment payload) db = (Raise DataError, db).
Proof.
  intros Hf Hfit.
  unfold lookup_order in Hf. pose proof (find_order_id _ _ _ Hf) as Hid.
  destruct db as [[a b c d e] q]. unfold payment_fits in Hfit. simpl in Hf, Hfit.
  unfold get_db, create_payment.
  unfold bind at 1. unfold select_order_first at 1. simpl.
  destruct (int4 (PaymentCreate.order_id payload)) eqn:Hoid; [|reflexivity].
  assert (Hfit' : int4 (payments_id_seq q) && int4 (PaymentCreate.order_id payload) &&
                  int4 (PaymentCreate.amount_cents payload) &&
                  is_ok (varchar 40 (PaymentCreate.provider payload)) = false)
    by (rewrite Hoid; exact Hfit).
  rewrite Hf. simpl.
  destruct (PaymentCreate.amount_cents payload >=? Order.total_cents o) eqn:Hge.
  - unfold bind, db_add, db_commit, load_expired_order, flush_session, ret.
    cbn -[flush_one].
    rewrite Hid, (flush_one_paid now _ _ _ Hoid).
    rewrite (flush_one_payment_refused now _ _ _ _ _ Hfit'). reflexivity.
  - unfold bind, db_add, db_commit, load_expired_order, flush_session, ret.
    cbn -[flush_one].
    rewrite (flush_one_payment_refused now _ _ _ _ _ Hfit'). reflexivity.
Qed.

Lemma create_payment_missing (now : Z) (payload : PaymentCreate.t) (db : Database) :
  int4 (PaymentCreate.order_id payload) = true ->
  lookup_order (db_tables db) (PaymentCreate.order_id payload) = None ->
  get_db now (create_payment payload) db = (Raise (HTTPException 404 "Order not found"), db).
Proof.
  intros Hi Hn. unfold get_db, create_payment, bind, select_order_first. simpl. rewrite Hi.
  unfold lookup_order in Hn. rewrite Hn. simpl. rewrite close_open_session. reflexivity.
Qed.

Lemma create_payment_out_of_range (now : Z) (payload : PaymentCreate.t) (db : Database) :
  int4 (PaymentCreate.order_id payload) = false ->
  get_db now (create_payment payload) db = (Raise DataError, db).
Proof.
  intros Hi. unfold get_db, create_payment, bind, select_order_first. simpl. rewrite Hi.
  rewrite close_open_session. reflexivity.
Qed.

Lemma lookup_order_after_payment (payload : PaymentCreate.t) (t : Tables) (o : Order.t)
    (rows : list Payment.t) :
  lookup_order t (PaymentCreate.order_id payload) = Some o ->
  lookup_order
    (mkTables (restaurants t) (menu_items t)
       (if PaymentCreate.amount_cents payload >=? Order.total_cents o
        then update_order (PaymentCreate.order_id payload) (Order.with_status "paid")
               (orders t)
        else orders t)
       (order_items t) rows)
    (PaymentCreate.order_id payload) =
  Some (Order.with_status (status_after_payment (PaymentCreate.amount_cents payload) o) o).
Proof.
  intros Hf. unfold lookup_order, status_after_payment in *. simpl.
  destruct (PaymentCreate.amount_cents payload >=? Order.total_cents o).
  - rewrite find_update_order by reflexivity. rewrite Hf. reflexivity.
  - rewrite Hf, with_status_same. reflexivity.
Qed.

Lemma update_order_keeps_other_fields (k : Z) (st : string) (rows : list Order.t) :
  Forall2 (fun x x' => Order.with_status (Order.status x) x' = x)
    rows (update_order k (Order.with_status st) rows).
Proof.
  induction rows as [|x rows IH]; simpl; constructor.
  - destruct (Order.id x =? k); destruct x; reflexivity.
  - exact IH.
Qed.

Lemma Forall2_same {A} (R : A -> A -> Prop) (l : list A) :
  (forall x, R x x) -> Forall2 R l l.
Proof. intros HR. induction l; constructor; auto. Qed.

(** A text without NUL that is no longer than the column is stored as it
    is. *)
Lemma varchar_fits (n : nat) (s : string) :
  text_ok s = true -> (String.length s <= n)%nat -> varchar n s = Ok s.
Proof.
  intros Ht Hl. unfold varchar. rewrite Ht. simpl.
  apply Nat.leb_le in Hl. rewrite Hl. reflexivity.
Qed.

Lemma stored_provider_fits (payload : PaymentCreate.t) :
  text_ok (PaymentCreate.provider payload) = true ->
  (String.length (PaymentCreate.provider payload) <= 40)%nat ->
  stored_provider payload = PaymentCreate.provider payload.
Proof.
  intros Ht Hl. unfold stored_provider. rewrite (varchar_fits 40 _ Ht Hl). reflexivity.
Qed.

(** C3 (amended): a payment that the store can record (a payment key is
    left, the order id and the amount are 32-bit integers, the provider fits
    the 40 characters of its column) on an existing order sets the status to
    "paid" when [amount_cents >= total_cents] and leaves it as it was when
    [amount_cents < total_cents]; the [order_status] of the response is the
    resulting status.  Each payment is compared with the total on its own:
    two payments that are each below the total leave the status unchanged
    even when together they reach it.  A payment that the store cannot
    record raises [DataError] and leaves the status as it was, whatever the
    amount. *)
Theorem create_payment_status_rule
    (now : Z) (payload : PaymentCreate.t) (db : Database) (o : Order.t) :
  lookup_order (db_tables db) (PaymentCreate.order_id payload) = Some o ->
  (payment_fits payload db = true ->
   exists res db',
     get_db now (create_payment payload) db = (Ok res, db') /\
     lookup_order (db_tables db') (PaymentCreate.order_id payload) =
       Some (Order.with_status (PaymentResult.order_status res) o) /\
     (PaymentCreate.amount_cents payload >= Order.total_cents o ->
      PaymentResult.order_status res = "paid") /\
     (PaymentCreate.amount_cents payload < Order.total_cents o ->
      PaymentResult.order_status res = Order.status o /\
      forall now2 payload2,
        PaymentCreate.order_id payload2 = PaymentCreate.order_id payload ->
        PaymentCreate.amount_cents payload2 < Order.total_cents o ->
        payment_fits payload2 db' = true ->
        exists res2 db2,
          get_db now2 (create_payment payload2) db' = (Ok res2, db2) /\
          PaymentResult.order_status res2 = Order.status o /\
          lookup_order (db_tables db2) (PaymentCreate.order_id payload) = Some o)) /\
  (payment_fits payload db = false ->
   get_db now (create_payment payload) db = (Raise DataError, db)).
Proof.
  intros Hf. split; [|exact (create_payment_refused now payload db o Hf)].
  intros Hfit.
  rewrite (create_payment_recorded now payload db o Hf Hfit).
  eexists. eexists. split; [reflexivity|]. simpl.
  pose proof (lookup_order_after_payment payload (db_tables db) o
                (payments (db_tables db) ++
                   [Payment.mk (payments_id_seq (db_seqs db)) (PaymentCreate.order_id payload)
                      (stored_provider payload) (PaymentCreate.amount_cents payload)
                      now]) Hf) as Hafter.
  split; [exact Hafter|].
  unfold status_after_payment in *.
  split.
  - intros Hge. apply Z.geb_ge in Hge. rewrite Hge. reflexivity.
  - intros Hlt.
    assert (Hb : (PaymentCreate.amount_cents payload >=? Order.total_cents o) = false).
    { rewrite Z.geb_leb. apply Z.leb_gt. exact Hlt. }
    rewrite Hb in *. split; [reflexivity|].
    rewrite with_status_same in Hafter.
    intros now2 payload2 Hsame Hlt2 Hfit2.
    match goal with
    | |- context [get_db now2 (create_payment payload2) ?d] =>
        assert (Hf2 : lookup_order (db_tables d) (PaymentCreate.order_id payload2) = Some o)
          by (rewrite Hsame; exact Hafter);
        rewrite (create_payment_recorded now2 payload2 d o Hf2 Hfit2)
    end.
    eexists. eexists. split; [reflexivity|].
    assert (Hb2 : (PaymentCreate.amount_cents payload2 >=? Order.total_cents o) = false).
    { rewrite Z.geb_leb. apply Z.leb_gt. exact Hlt2. }
    unfold status_after_payment. rewrite Hb2. split; [reflexivity|].
    simpl. simpl in Hf2. rewrite <- Hsame. exact Hf2.
Qed.

Lemma create_payment_status_rule_witness :
  (exists res db',
     get_db 11 (create_payment (PaymentCreate.mk 1 1000 "mock")) created_db = (Ok res, db') /\
     PaymentResult.order_status res = "paid" /\
     lookup_order (db_tables db') 1 = Some (Order.mk 1 1 "paid" 1000 10)) /\
  (exists res db' res2 db2,
     get_db 11 (create_payment (PaymentCreate.mk 1 500 "mock")) created_db = (Ok res, db') /\
     PaymentResult.order_status res = "created" /\
     get_db 12 (create_payment (PaymentCreate.mk 1 500 "card")) db' = (Ok res2, db2) /\
     PaymentResult.order_status res2 = "created" /\
     lookup_order (db_tables db2) 1 = Some (Order.mk 1 1 "created" 1000 10)).
Proof.
  split.
  - destruct (proj1 (create_payment_status_rule 11 (PaymentCreate.mk 1 1000 "mock") created_db
                       (Order.mk 1 1 "created" 1000 10) eq_refl) eq_refl)
      as [res [db' [E [Hrow [Hpaid _]]]]].
    exists res, db'. split; [exact E|].
    assert (Hs : PaymentResult.order_status res = "paid") by (apply Hpaid; simpl; lia).
    split; [exact Hs|]. simpl in Hrow. rewrite Hrow, Hs. reflexivity.
  - destruct (proj1 (create_payment_status_rule 11 (PaymentCreate.mk 1 500 "mock") created_db
                       (Order.mk 1 1 "created" 1000 10) eq_refl) eq_refl)
      as [res [db' [E [_ [_ Hbelow]]]]].
    destruct Hbelow as [Hs Hnext]; [simpl; lia|].
    destruct (Hnext 12 (PaymentCreate.mk 1 500 "card") eq_refl) as [res2 [db2 [E2 [Hs2 Hrow2]]]].
    + simpl. lia.
    + vm_compute in E. injection E as _ <-. reflexivity.
    + exists res, db', res2, db2. repeat split; assumption.
Defined.

(** The status rule without the store's bounds fails: an amount of 2^31
    covers the total of 1000, yet the payment is refused and the order stays
    "created". *)
Lemma create_payment_status_rule_counterexample :
  lookup_order (db_tables created_db) 1 = Some (Order.mk 1 1 "created" 1000 10) /\
  2147483648 >= Order.total_cents (Order.mk 1 1 "created" 1000 10) /\
  get_db 11 (create_payment (PaymentCreate.mk 1 2147483648 "mock")) created_db =
    (Raise DataError, created_db) /\
  option_map Order.status
    (lookup_order
       (db_tables (snd (get_db 11 (create_payment (PaymentCreate.mk 1 2147483648 "mock"))
                          created_db))) 1) = Some "created".
Proof.
  split; [reflexivity|]. split; [simpl; lia|]. split; vm_compute; reflexivity.
Qed.

(** C7 (amended): a payment with [amount_cents >= 0] on an existing order
    that the store can record (a payment key is left, the amount is a 32-bit
    integer, the provider fits the 40 characters of its column) adds one
    payment row carrying the amount, the provider and the time of the
    request, whatever the amount is compared with the total (zero included).
    Of the order rows only the status can differ afterwards, and the other
    tables are untouched.  A payment that the store cannot record raises
    [DataError] and nothing is written; a negative amount is refused by the
    request schema and nothing is written. *)
Theorem create_payment_always_records
    (now : Z) (payload : PaymentCreate.t) (db : Database) (o : Order.t) :
  lookup_order (db_tables db) (PaymentCreate.order_id payload) = Some o ->
  (0 <= PaymentCreate.amount_cents payload ->
   payment_fits payload db = true ->
   exists res db',
     createPayment now payload db = (Ok res, db') /\
     payments (db_tables db') =
       payments (db_tables db) ++
         [Payment.mk (payments_id_seq (db_seqs db)) (PaymentCreate.order_id payload)
            (stored_provider payload) (PaymentCreate.amount_cents payload) now] /\
     (text_ok (PaymentCreate.provider payload) = true ->
      (String.length (PaymentCreate.provider payload) <= 40)%nat ->
      stored_provider payload = PaymentCreate.provider payload) /\
     Forall2 (fun x x' => Order.with_status (Order.status x) x' = x)
       (orders (db_tables db)) (orders (db_tables db')) /\
     restaurants (db_tables db') = restaurants (db_tables db) /\
     menu_items (db_tables db') = menu_items (db_tables db) /\
     order_items (db_tables db') = order_items (db_tables db)) /\
  (0 <= PaymentCreate.amount_cents payload ->
   payment_fits payload db = false ->
   createPayment now payload db = (Raise DataError, db)) /\
  (PaymentCreate.amount_cents payload < 0 ->
   createPayment now payload db = (Raise RequestValidationError, db)).
Proof.
  intros Hf. unfold createPayment, Body, PaymentCreate.validate. split; [|split].
  - intros Hge Hfit. apply Z.leb_le in Hge. rewrite Hge.
    rewrite (create_payment_recorded now payload db o Hf Hfit).
    eexists. eexists. split; [reflexivity|]. simpl.
    split; [reflexivity|]. split; [apply stored_provider_fits|].
    split; [|repeat split].
    destruct (PaymentCreate.amount_cents payload >=? Order.total_cents o).
    + apply update_order_keeps_other_fields.
    + apply Forall2_same. intros x. apply with_status_same.
  - intros Hge Hfit. apply Z.leb_le in Hge. rewrite Hge.
    exact (create_payment_refused now payload db o Hf Hfit).
  - intros Hlt. apply Z.leb_gt in Hlt. rewrite Hlt.
    unfold get_db, raise. simpl. rewrite close_open_session. reflexivity.
Qed.

Lemma create_payment_always_records_witness :
  (exists res db',
     createPayment 11 (PaymentCreate.mk 1 0 "mock") created_db = (Ok res, db') /\
     payments (db_tables db') = [Payment.mk 1 1 "mock" 0 11] /\
     orders (db_tables db') = orders (db_tables created_db)) /\
  createPayment 11 (PaymentCreate.mk 1 (-1) "mock") created_db =
    (Raise RequestValidationError, created_db).
Proof.
  pose proof (create_payment_always_records 11 (PaymentCreate.mk 1 0 "mock") created_db
                (Order.mk 1 1 "created" 1000 10) eq_refl) as [H0 _].
  pose proof (create_payment_always_records 11 (PaymentCreate.mk 1 (-1) "mock") created_db
                (Order.mk 1 1 "created" 1000 10) eq_refl) as [_ [_ Hneg]].
  split.
  - destruct H0 as [res [db' [E [Hp _]]]]; [simpl; lia | reflexivity |].
    exists res, db'. split; [exact E|]. split; [exact Hp|].
    vm_compute in E. injection E as _ E. subst db'. reflexivity.
  - apply Hneg. simpl. lia.
Defined.

(** Without the store's bounds the payment is not always recorded: a
    provider of 41 characters on an existing order, with amount 0, is
    refused and the payments table stays empty. *)
Lemma create_payment_always_records_counterexample :
  lookup_order (db_tables created_db) 1 = Some (Order.mk 1 1 "created" 1000 10) /\
  0 <= PaymentCreate.amount_cents
         (PaymentCreate.mk 1 0 "aaaaaaaaaaaaaaaaaaaaaaaaaaaaaaaaaaaaaaaaa") /\
  String.length "aaaaaaaaaaaaaaaaaaaaaaaaaaaaaaaaaaaaaaaaa" = 41%nat /\
  createPayment 11 (PaymentCreate.mk 1 0 "aaaaaaaaaaaaaaaaaaaaaaaaaaaaaaaaaaaaaaaaa")
    created_db = (Raise DataError, created_db) /\
  payments (db_tables created_db) = [].
Proof.
  split; [reflexivity|]. split; [simpl; lia|]. split; [reflexivity|].
  split; [vm_compute; reflexivity | reflexivity].
Qed.

(** ** Listing *)

Lemma insert_by_id_desc_perm (o : Order.t) (rows : list Order.t) :
  Permutation (insert_by_id_desc o rows) (o :: rows).
Proof.
  induction rows as [|x rows IH]; simpl.
  - apply Permutation_refl.
  - destruct (Order.id x <=? Order.id o).
    + apply Permutation_refl.
    + apply perm_trans with (x :: o :: rows).
      * apply perm_skip. exact IH.
      * apply perm_swap.
Qed.

Lemma order_by_id_desc_perm (rows : list Order.t) :
  Permutation (order_by_id_desc rows) rows.
Proof.
  induction rows as [|x rows IH]; simpl.
  - apply perm_nil.
  - apply perm_trans with (x :: order_by_id_desc rows).
    + apply insert_by_id_desc_perm.
    + apply perm_skip. exact IH.
Qed.

Lemma insert_by_id_desc_sorted (o : Order.t) (rows : list Order.t) :
  StronglySorted by_id_desc rows -> StronglySorted by_id_desc (insert_by_id_desc o rows).
Proof.
  induction 1 as [|x rows Hs IH Hx]; simpl.
  - constructor; constructor.
  - destruct (Order.id x <=? Order.id o) eqn:E.
    + apply Z.leb_le in E. constructor.
      * constructor; assumption.
      * constructor; [exact E|].
        revert Hx. apply Forall_impl. unfold by_id_desc. intros y Hy. lia.
    + apply Z.leb_gt in E. constructor; [exact IH|].
      apply Forall_forall. intros y Hy.
      apply (Permutation_in _ (insert_by_id_desc_perm o rows)) in Hy.
      destruct Hy as [<- | Hy].
      * unfold by_id_desc. lia.
      * rewrite Forall_forall in Hx. exact (Hx y Hy).
Qed.

Lemma order_by_id_desc_sorted (rows : list Order.t) :
  StronglySorted by_id_desc (order_by_id_desc rows).
Proof.
  induction rows as [|x rows IH]; simpl.
  - constructor.
  - apply insert_by_id_desc_sorted. exact IH.
Qed.

Lemma In_firstn {A} (n : nat) (l : list A) (x : A) : In x (firstn n l) -> In x l.
Proof.
  revert l. induction n as [|n IH]; intros [|y l]; simpl; try tauto.
  intros [H|H]; [left; exact H | right; apply IH; exact H].
Qed.

Lemma In_skipn {A} (n : nat) (l : list A) (x : A) : In x (skipn n l) -> In x l.
Proof.
  revert l. induction n as [|n IH]; intros [|y l]; simpl; try tauto.
  intros H. right. apply IH. exact H.
Qed.

Lemma StronglySorted_firstn {A} (R : A -> A -> Prop) (n : nat) (l : list A) :
  StronglySorted R l -> StronglySorted R (firstn n l).
Proof.
  intros H. revert n. induction H as [|x l Hs IH Hx]; intros [|n]; simpl;
    try constructor.
  - apply IH.
  - apply Forall_forall. intros y Hy. apply In_firstn in Hy.
    rewrite Forall_forall in Hx. exact (Hx y Hy).
Qed.

Lemma StronglySorted_skipn {A} (R : A -> A -> Prop) (n : nat) (l : list A) :
  StronglySorted R l -> StronglySorted R (skipn n l).
Proof.
  intros H. revert n. induction H as [|x l Hs IH Hx]; intros [|n]; simpl.
  - constructor.
  - constructor.
  - constructor; assumption.
  - apply IH.
Qed.

Lemma StronglySorted_map_reads (t : Tables) (rows : list Order.t) :
  StronglySorted by_id_desc rows ->
  StronglySorted read_by_id_desc (map (OrderRead_of t) rows).
Proof.
  induction 1 as [|x rows Hs IH Hx]; simpl; constructor.
  - exact IH.
  - apply Forall_forall. intros y Hy. apply in_map_iff in Hy.
    destruct Hy as [z [<- Hz]]. rewrite Forall_forall in Hx.
    exact (Hx z Hz).
Qed.

(** Every stored order converts to a response. *)
Lemma traverse_order_to_read (db : Database) (rows : list Order.t) :
  schema_ok db = true ->
  incl rows (orders (db_tables db)) ->
  traverse _order_to_read (map (load_items (db_tables db)) rows) =
    Ok (map (OrderRead_of (db_tables db)) rows).
Proof.
  intros Hok Hincl.
  destruct (schema_ok_rows db Hok) as [_ [_ [Ho _]]]. rewrite Forall_forall in Ho.
  induction rows as [|o rows IH]; simpl; [reflexivity|].
  unfold load_items at 1.
  rewrite order_to_read_ok.
  - rewrite IH; [reflexivity|]. intros x Hx. apply Hincl. right. exact Hx.
  - destruct (Ho o (Hincl o (or_introl eq_refl))) as [H _]. exact H.
  - apply order_items_valid. exact Hok.
Qed.

Lemma Query_limit (limit : option Z) :
  Query 50 (fun n => (1 <=? n) && (n <=? 200)) limit =
    Ok (or_default 50 limit) /\ limit_in_range limit \/
  Query 50 (fun n => (1 <=? n) && (n <=? 200)) limit =
    Raise RequestValidationError /\ ~ limit_in_range limit.
Proof.
  destruct limit as [n|]; simpl.
  - destruct ((1 <=? n) && (n <=? 200)) eqn:E.
    + left. apply andb_true_iff in E. destruct E as [H1 H2].
      apply Z.leb_le in H1, H2. split; [reflexivity | lia].
    + right. split; [reflexivity|]. intros [H1 H2].
      apply Z.leb_le in H1, H2. rewrite H1, H2 in E. discriminate.
  - left. split; [reflexivity | exact I].
Qed.

Lemma Query_offset (offset : option Z) :
  Query 0 (fun n => 0 <=? n) offset = Ok (or_default 0 offset) /\ offset_in_range offset \/
  Query 0 (fun n => 0 <=? n) offset = Raise RequestValidationError /\
    ~ offset_in_range offset.
Proof.
  destruct offset as [n|]; simpl.
  - destruct (0 <=? n) eqn:E.
    + left. apply Z.leb_le in E. split; [reflexivity | exact E].
    + right. split; [reflexivity|]. intros H. apply Z.leb_le in H. congruence.
  - left. split; [reflexivity | exact I].
Qed.

Lemma where_status_incl (status : option string) (rows : list Order.t) :
  incl (where_status status rows) rows.
Proof.
  destruct status as [s|]; simpl.
  - intros x Hx. apply filter_In in Hx. tauto.
  - apply incl_refl.
Qed.

Lemma where_status_matches (s : string) (rows : list Order.t) :
  Forall (fun o => Order.status o = s) (where_status (Some s) rows).
Proof.
  apply Forall_forall. intros o Ho. simpl in Ho. apply filter_In in Ho.
  destruct Ho as [_ Ho]. apply String.eqb_eq. exact Ho.
Qed.

(** The page [list_orders] selects is part of the filtered rows. *)
Lemma page_incl (limit offset : nat) (rows : list Order.t) :
  incl (firstn limit (skipn offset (order_by_id_desc rows))) rows.
Proof.
  intros x Hx. apply In_firstn in Hx. apply In_skipn in Hx.
  exact (Permutation_in _ (order_by_id_desc_perm rows) Hx).
Qed.

(** With the parameters inside the bounds of the query schema, the store
    takes the listing query when the filter holds no NUL character and the
    offset is one it accepts. *)
Lemma listing_accepted_in_range (max_offset : Z) (status : option string)
    (limit offset : option Z) :
  limit_in_range limit -> offset_in_range offset ->
  listing_accepted max_offset status (or_default 50 limit) (or_default 0 offset) =
    match status with
    | None => true
    | Some s => text_ok s
    end && (or_default 0 offset <=? max_offset).
Proof.
  intros Hl Ho. unfold listing_accepted.
  assert (H1 : (0 <=? or_default 50 limit) = true).
  { apply Z.leb_le. destruct limit; simpl in *; lia. }
  assert (H2 : int4 (or_default 50 limit) = true).
  { unfold int4, INT4_MIN, INT4_MAX. apply andb_true_iff.
    split; apply Z.leb_le; destruct limit; simpl in *; lia. }
  assert (H3 : (0 <=? or_default 0 offset) = true).
  { apply Z.leb_le. destruct offset; simpl in *; lia. }
  rewrite H1, H2, H3, !andb_true_r. reflexivity.
Qed.

(** C8: [list_orders] answers with the stored orders sorted by descending
    identifier.  [limit] must lie in 1..200 and is 50 when absent, [offset]
    must be at least 0 and is 0 when absent; a value outside these bounds is
    refused.  The answer is the page (skip [offset], keep [limit]) of the
    sorted rows whose status equals the filter when one is given, and of all
    rows otherwise.  The store takes the query when the filter text holds no
    NUL character and the offset is not past the largest it accepts, and
    raises [DataError] otherwise; the database is never changed. *)
Theorem list_orders_descending_filtered_paged
    (max_offset now : Z) (status : option string) (limit offset : option Z)
    (db : Database) :
  schema_ok db = true ->
  (limit_in_range limit -> offset_in_range offset ->
   exists sorted,
     Permutation sorted (where_status status (orders (db_tables db))) /\
     StronglySorted by_id_desc sorted /\
     let rs := map (OrderRead_of (db_tables db))
                 (firstn (Z.to_nat (or_default 50 limit))
                    (skipn (Z.to_nat (or_default 0 offset)) sorted)) in
     listOrders max_offset now status limit offset db =
       (if match status with
           | None => true
           | Some s => text_ok s
           end && (or_default 0 offset <=? max_offset)
        then Ok rs
        else Raise DataError, db) /\
     StronglySorted read_by_id_desc rs /\
     Z.of_nat (List.length rs) <= or_default 50 limit /\
     (forall s, status = Some s -> Forall (fun r => OrderRead.status r = s) rs)) /\
  (~ limit_in_range limit \/ ~ offset_in_range offset ->
   listOrders max_offset now status limit offset db = (Raise RequestValidationError, db)).
Proof.
  intros Hok. split.
  - intros Hl Hoff.
    exists (order_by_id_desc (where_status status (orders (db_tables db)))).
    split; [apply order_by_id_desc_perm|].
    split; [apply order_by_id_desc_sorted|].
    cbv zeta. split; [|split; [|split]].
    + unfold listOrders, get_db.
      destruct (Query_limit limit) as [[El _] | [_ Hn]]; [|contradiction].
      destruct (Query_offset offset) as [[Eo _] | [_ Hn]]; [|contradiction].
      unfold bind at 1. unfold lift at 1. rewrite El.
      unfold bind at 1. unfold lift at 1. rewrite Eo.
      unfold list_orders, bind, select_orders_all, lift.
      rewrite (listing_accepted_in_range max_offset status limit offset Hl Hoff).
      destruct (match status with
                | None => true
                | Some s => text_ok s
                end && (or_default 0 offset <=? max_offset)).
      * simpl. rewrite (traverse_order_to_read db _ Hok).
        -- rewrite close_open_session. reflexivity.
        -- eapply incl_tran; [apply page_incl | apply where_status_incl].
      * simpl. rewrite close_open_session. reflexivity.
    + apply StronglySorted_map_reads, StronglySorted_firstn, StronglySorted_skipn.
      apply order_by_id_desc_sorted.
    + rewrite length_map.
      pose proof (firstn_le_length (Z.to_nat (or_default 50 limit))
                    (skipn (Z.to_nat (or_default 0 offset))
                       (order_by_id_desc (where_status status (orders (db_tables db))))))
        as Hlen.
      assert (0 <= or_default 50 limit) by (destruct limit; simpl in *; lia).
      lia.
    + intros s ->. apply Forall_forall. intros r Hr.
      apply in_map_iff in Hr. destruct Hr as [o [<- Ho]].
      apply page_incl in Ho.
      pose proof (where_status_matches s (orders (db_tables db))) as Hm.
      rewrite Forall_forall in Hm. exact (Hm o Ho).
  - intros Hbad. unfold listOrders, get_db.
    destruct (Query_limit limit) as [[El Hl] | [El _]].
    + destruct (Query_offset offset) as [[_ Ho] | [Eo _]]; [tauto|].
      unfold bind at 1. unfold lift at 1. rewrite El.
      unfold bind at 1. unfold lift at 1. rewrite Eo.
      simpl. rewrite close_open_session. reflexivity.
    + unfold bind at 1. unfold lift at 1. rewrite El.
      simpl. rewrite close_open_session. reflexivity.
Qed.

Lemma list_orders_descending_filtered_paged_witness :
  (exists rs,
     listOrders 2147483647 30 (Some "paid") (Some 2) (Some 0) listing_db =
       (Ok rs, listing_db) /\
     StronglySorted read_by_id_desc rs /\
     Z.of_nat (List.length rs) <= 2 /\
     Forall (fun r => OrderRead.status r = "paid") rs) /\
  listOrders 2147483647 30 None (Some 201) None listing_db =
    (Raise RequestValidationError, listing_db).
Proof.
  split.
  - destruct (proj1 (list_orders_descending_filtered_paged 2147483647 30 (Some "paid")
                       (Some 2) (Some 0) listing_db eq_refl))
      as [sorted [_ [_ [E [Hs [Hlen Hst]]]]]]; [simpl; lia | simpl; lia |].
    eexists. split; [exact E|]. split; [exact Hs|]. split; [exact Hlen|].
    apply Hst. reflexivity.
  - apply (proj2 (list_orders_descending_filtered_paged 2147483647 30 None (Some 201) None
                    listing_db eq_refl)).
    left. simpl. lia.
Defined.

(** The listing of the three orders, paid ones only, computed. *)
Example list_orders_paid_example :
  listOrders 2147483647 30 (Some "paid") None None listing_db =
    (Ok [OrderRead.mk 3 1 "paid" 0 12 [];
         OrderRead.mk 2 1 "paid" 500 11 [OrderItemRead.mk 2 1 1 500]], listing_db).
Proof. vm_compute. reflexivity. Qed.

Example list_orders_page_example :
  listOrders 2147483647 30 None (Some 1) (Some 1) listing_db =
    (Ok [OrderRead.mk 2 1 "paid" 500 11 [OrderItemRead.mk 2 1 1 500]], listing_db).
Proof. vm_compute. reflexivity. Qed.

(** An offset past what the store accepts passes the query schema and is
    refused by the store. *)
Example list_orders_offset_out_of_range :
  listOrders 9223372036854775807 30 None None (Some 9223372036854775808) listing_db =
    (Raise DataError, listing_db).
Proof. vm_compute. reflexivity. Qed.

(** ** Menu items *)

Lemma find_menu_none_below (k : Z) (rows : list MenuItem.t) :
  Forall (fun m => MenuItem.id m < k) rows ->
  find (fun m => MenuItem.id m =? k) rows = None.
Proof.
  induction 1 as [|m rows Hm _ IH]; simpl; [reflexivity|].
  replace (MenuItem.id m =? k) with false by (symmetry; apply Z.eqb_neq; lia).
  exact IH.
Qed.

Lemma text_stored (d d' : option string) : text d = Ok d' -> d' = d.
Proof.
  unfold text. destruct d as [x|]; [destruct (text_ok x)|]; congruence.
Qed.

(** The whole of a successful [create_menu_item]. *)
Lemma create_menu_item_succeeds (now : Z) (payload : MenuItemCreate.t) (db : Database)
    (r : Restaurant.t) :
  schema_ok db = true ->
  MenuItemCreate.validate payload = true ->
  lookup_restaurant (db_tables db) (MenuItemCreate.restaurant_id payload) = Some r ->
  menu_item_fits payload db = true ->
  let t := db_tables db in
  let q := db_seqs db in
  let row := MenuItem.mk (menu_items_id_seq q) (MenuItemCreate.restaurant_id payload)
               (stored_name payload) (MenuItemCreate.description payload)
               (MenuItemCreate.price_cents payload) (MenuItemCreate.is_available payload)
               now in
  createMenuItem now payload db =
    (Ok (MenuItemRead.mk (MenuItemCreate.restaurant_id payload) (stored_name payload)
           (MenuItemCreate.description payload) (MenuItemCreate.price_cents payload)
           (MenuItemCreate.is_available payload) (menu_items_id_seq q) now),
     mkDatabase
       (mkTables (restaurants t) (menu_items t ++ [row]) (orders t) (order_items t)
          (payments t))
       (next_menu_item_id q)).
Proof.
  intros Hok Hv Hr Hfit t q row. subst t q row.
  destruct (schema_ok_rows db Hok) as [_ [Hm _]].
  assert (Hbelow : Forall (fun m => MenuItem.id m < menu_items_id_seq (db_seqs db))
                     (menu_items (db_tables db))).
  { revert Hm. apply Forall_impl. intros m [_ [H _]]. exact H. }
  unfold menu_item_fits in Hfit.
  apply andb_true_iff in Hfit. destruct Hfit as [Hfit Hdesc].
  apply andb_true_iff in Hfit. destruct Hfit as [Hfit Hname].
  apply andb_true_iff in Hfit. destruct Hfit as [Hfit Hprice].
  apply andb_true_iff in Hfit. destruct Hfit as [Hkey Hrid].
  unfold stored_name.
  destruct (varchar 200 (MenuItemCreate.name payload)) as [name|] eqn:En;
    [|discriminate Hname].
  destruct (text (MenuItemCreate.description payload)) as [description|] eqn:Ed;
    [|discriminate Hdesc].
  apply text_stored in Ed as Hd. subst description.
  unfold createMenuItem, Body. rewrite Hv.
  unfold get_db, create_menu_item.
  unfold bind at 1. unfold db_get_restaurant at 1. simpl.
  unfold lookup_restaurant in Hr. rewrite Hrid, Hr.
  destruct db as [[a b c d e] q]. simpl in *.
  unfold bind, db_add_menu_item_flush, db_commit, db_refresh_menu_item, flush_session. simpl.
  rewrite Hkey, Hrid, Hprice, En, Ed. simpl. rewrite Hkey.
  rewrite (find_app_none _ b _ (find_menu_none_below _ b Hbelow)). simpl.
  rewrite Z.eqb_refl. unfold lift, MenuItemRead_model_validate. simpl.
  unfold MenuItemCreate.validate in Hv. rewrite Hv. reflexivity.
Qed.

(** A request [create_menu_item] does not answer leaves the database as
    it was. *)
Lemma create_menu_item_refused (now : Z) (payload : MenuItemCreate.t) (db : Database) :
  MenuItemCreate.validate payload = false \/
  lookup_restaurant (db_tables db) (MenuItemCreate.restaurant_id payload) = None \/
  menu_item_fits payload db = false ->
  snd (createMenuItem now payload db) = db.
Proof.
  intros H. unfold createMenuItem, Body.
  destruct (MenuItemCreate.validate payload) eqn:Hv.
  2:{ unfold get_db, raise. simpl. apply close_open_session. }
  destruct H as [H | H]; [discriminate H|].
  unfold get_db, create_menu_item.
  unfold bind at 1. unfold db_get_restaurant at 1. simpl.
  destruct (int4 (MenuItemCreate.restaurant_id payload)) eqn:Hrid.
  2:{ simpl. apply close_open_session. }
  destruct (find _ (restaurants (db_tables db))) as [r|] eqn:Hr.
  2:{ simpl. apply close_open_session. }
  destruct H as [H | Hfit]; [unfold lookup_restaurant in H; congruence|].
  unfold menu_item_fits in Hfit. rewrite Hrid in Hfit.
  destruct db as [[a b c d e] q]. simpl in *.
  unfold bind, db_add_menu_item_flush, flush_session. simpl. rewrite Hrid.
  destruct (int4 (menu_items_id_seq q)); simpl in *; [|reflexivity].
  destruct (int4 (MenuItemCreate.price_cents payload)); simpl in *; [|reflexivity].
  destruct (varchar 200 (MenuItemCreate.name payload)); simpl in *; [|reflexivity].
  destruct (text (MenuItemCreate.description payload)); simpl in *;
    [discriminate Hfit | reflexivity].
Qed.

Lemma forallb_impl {A} (p p' : A -> bool) (l : list A) :
  (forall x, p x = true -> p' x = true) -> forallb p l = true -> forallb p' l = true.
Proof.
  intros Hpp. rewrite !forallb_forall. intros H x Hx. apply Hpp, H, Hx.
Qed.

(** A new menu item with a non-negative price and a 32-bit key keeps the
    stored-row constraints. *)
Lemma schema_ok_new_menu_item (db : Database) (rid : Z) (name : string)
    (description : option string) (price : Z) (available : bool) (now : Z) :
  schema_ok db = true ->
  0 <= price ->
  int4 (menu_items_id_seq (db_seqs db)) = true ->
  schema_ok
    (mkDatabase
       (mkTables (restaurants (db_tables db))
          (menu_items (db_tables db) ++
             [MenuItem.mk (menu_items_id_seq (db_seqs db)) rid name description price
                available now])
          (orders (db_tables db)) (order_items (db_tables db)) (payments (db_tables db)))
       (next_menu_item_id (db_seqs db))) = true.
Proof.
  unfold schema_ok. simpl. intros H Hp Hk.
  apply andb_true_iff in H. destruct H as [H Hoi].
  apply andb_true_iff in H. destruct H as [H Ho].
  apply andb_true_iff in H. destruct H as [Hr Hm].
  rewrite Hr, Ho, Hoi, !andb_true_r. simpl.
  rewrite forallb_app. apply andb_true_iff. split.
  - revert Hm. apply forallb_impl. intros m Hx.
    apply andb_true_iff in Hx. destruct Hx as [Hx H3].
    apply andb_true_iff in Hx. destruct Hx as [H1 H2]. rewrite H1, H3. simpl.
    rewrite andb_true_r. apply Z.ltb_lt in H2. apply Z.ltb_lt. lia.
  - simpl. rewrite Hk. apply Z.leb_le in Hp. rewrite Hp. simpl.
    rewrite !andb_true_r. apply Z.ltb_lt. lia.
Qed.

(** ** A free item, ordered and paid with nothing *)

(** C10: a menu item may be created with price 0 (the schema accepts
    [price_cents >= 0]); an order for it is created with [total_cents = 0];
    a payment of 0 on that order passes the request schema, satisfies
    [amount_cents >= total_cents] and sets the status to "paid".  The three
    requests are ones the store can record: the item fits its columns, the
    quantity is a 32-bit integer, a key is left for the order, its item and
    the payment, and the provider fits its column. *)
Theorem zero_price_order_paid_by_zero_payment
    (now1 now2 now3 : Z) (item : MenuItemCreate.t) (quantity : Z) (provider : string)
    (db : Database) (r : Restaurant.t) :
  schema_ok db = true ->
  lookup_restaurant (db_tables db) (MenuItemCreate.restaurant_id item) = Some r ->
  MenuItemCreate.price_cents item = 0 ->
  MenuItemCreate.is_available item = true ->
  1 <= quantity ->
  menu_item_fits item db = true ->
  int4 quantity = true ->
  int4 (orders_id_seq (db_seqs db)) = true ->
  int4 (order_items_id_seq (db_seqs db)) = true ->
  int4 (payments_id_seq (db_seqs db)) = true ->
  is_ok (varchar 40 provider) = true ->
  exists m db1 order db2 res db3,
    createMenuItem now1 item db = (Ok m, db1) /\
    MenuItemRead.price_cents m = 0 /\
    createOrder now2
      (OrderCreate.mk (MenuItemCreate.restaurant_id item)
         [OrderItemCreate.mk (MenuItemRead.id m) quantity]) db1 = (Ok order, db2) /\
    OrderRead.total_cents order = 0 /\
    OrderRead.status order = "created" /\
    createPayment now3 (PaymentCreate.mk (OrderRead.id order) 0 provider) db2 =
      (Ok res, db3) /\
    PaymentResult.order_status res = "paid" /\
    option_map Order.status (lookup_order (db_tables db3) (OrderRead.id order)) =
      Some "paid".
Proof.
  intros Hok Hr Hprice Havail Hqty Hfit Hq4 Hko Hki Hkp Hprov.
  assert (Hv : MenuItemCreate.validate item = true).
  { unfold MenuItemCreate.validate. rewrite Hprice. reflexivity. }
  assert (Hkm : int4 (menu_items_id_seq (db_seqs db)) = true).
  { unfold menu_item_fits in Hfit. rewrite !andb_true_iff in Hfit. tauto. }
  rewrite (create_menu_item_succeeds now1 item db r Hok Hv Hr Hfit).
  assert (Hp0 : 0 <= MenuItemCreate.price_cents item) by lia.
  pose proof (schema_ok_new_menu_item db (MenuItemCreate.restaurant_id item)
                (stored_name item) (MenuItemCreate.description item)
                (MenuItemCreate.price_cents item) (MenuItemCreate.is_available item)
                now1 Hok Hp0 Hkm) as Hok1.
  set (row := MenuItem.mk (menu_items_id_seq (db_seqs db)) (MenuItemCreate.restaurant_id item)
                (stored_name item) (MenuItemCreate.description item)
                (MenuItemCreate.price_cents item) (MenuItemCreate.is_available item) now1)
    in *.
  set (db1 := mkDatabase _ (next_menu_item_id (db_seqs db))) in *.
  set (payload := OrderCreate.mk (MenuItemCreate.restaurant_id item)
                    [OrderItemCreate.mk (menu_items_id_seq (db_seqs db)) quantity]).
  assert (Hfind : lookup_menu_item (db_tables db1) (menu_items_id_seq (db_seqs db)) =
                  Some row).
  { unfold lookup_menu_item, db1. simpl.
    destruct (schema_ok_rows db Hok) as [_ [Hm _]].
    rewrite find_app_none.
    - simpl. rewrite Z.eqb_refl. reflexivity.
    - apply find_menu_none_below. revert Hm. apply Forall_impl. intros x [_ [H _]]. exact H. }
  assert (Hpass : Forall (line_passes (db_tables db1) (OrderCreate.restaurant_id payload))
                    (OrderCreate.items payload)).
  { constructor; [|constructor]. exists row. repeat split; assumption. }
  assert (Hq : Forall (fun l => 1 <= OrderItemCreate.quantity l) (OrderCreate.items payload)).
  { constructor; [exact Hqty | constructor]. }
  assert (Hvo : OrderCreate.validate payload = true).
  { unfold OrderCreate.validate, OrderItemCreate.validate. simpl.
    apply Z.leb_le in Hqty. rewrite Hqty. reflexivity. }
  assert (Hr1 : lookup_restaurant (db_tables db1) (OrderCreate.restaurant_id payload) = Some r)
    by exact Hr.
  assert (Hmp : menu_price (db_tables db1) (menu_items_id_seq (db_seqs db)) = 0).
  { unfold menu_price. rewrite Hfind. exact Hprice. }
  assert (Htotal : lines_total (db_tables db1) (OrderCreate.items payload) = 0).
  { change (menu_price (db_tables db1) (menu_items_id_seq (db_seqs db)) * quantity + 0 = 0).
    rewrite Hmp. lia. }
  assert (Hofit : order_fits payload db1 = true).
  { unfold order_fits. rewrite Htotal.
    change (orders_id_seq (db_seqs db1)) with (orders_id_seq (db_seqs db)).
    change (order_items_id_seq (db_seqs db1)) with (order_items_id_seq (db_seqs db)).
    change (priced_rows (db_tables db1) (orders_id_seq (db_seqs db))
              (order_items_id_seq (db_seqs db)) (OrderCreate.items payload))
      with [OrderItem.mk (order_items_id_seq (db_seqs db)) (orders_id_seq (db_seqs db))
              (menu_items_id_seq (db_seqs db)) quantity
              (menu_price (db_tables db1) (menu_items_id_seq (db_seqs db)))].
    rewrite Hmp. unfold row_fits.
    cbn [forallb OrderItem.id OrderItem.order_id OrderItem.menu_item_id OrderItem.quantity
         OrderItem.price_cents_each].
    rewrite Hki, Hko, Hkm, Hq4. reflexivity. }
  pose proof (create_order_succeeds now2 payload db1 r Hok1 Hr1 Hpass Hq Hofit) as Hcreate.
  cbv zeta in Hcreate.
  rewrite Htotal in Hcreate.
  set (oid := orders_id_seq (db_seqs db1)) in *.
  set (o := Order.mk oid (OrderCreate.restaurant_id payload) "created" 0 now2) in *.
  match type of Hcreate with
  | _ = (_, ?d) => set (db2 := d) in *
  end.
  assert (Hlookup : lookup_order (db_tables db2)
                      (PaymentCreate.order_id (PaymentCreate.mk oid 0 provider)) = Some o).
  { unfold lookup_order, db2. simpl.
    destruct (schema_ok_rows db1 Hok1) as [_ [_ [Ho _]]].
    rewrite find_app_none.
    - simpl. rewrite Z.eqb_refl. reflexivity.
    - apply find_none_below. revert Ho. apply Forall_impl. intros x [_ [H _]]. exact H. }
  assert (Hpfit : payment_fits (PaymentCreate.mk oid 0 provider) db2 = true).
  { unfold payment_fits. simpl.
    change (payments_id_seq (db_seqs db)) with (payments_id_seq (db_seqs db)).
    unfold oid. change (orders_id_seq (db_seqs db1)) with (orders_id_seq (db_seqs db)).
    rewrite Hkp, Hko, Hprov. reflexivity. }
  pose proof (create_payment_recorded now3 (PaymentCreate.mk oid 0 provider) db2 o Hlookup
                Hpfit) as Hpay.
  cbv zeta in Hpay.
  eexists. eexists. eexists. eexists. eexists. eexists.
  split; [reflexivity|]. split; [exact Hprice|].
  split.
  { unfold createOrder, Body. simpl MenuItemRead.id. fold payload.
    rewrite Hvo. exact Hcreate. }
  split; [reflexivity|]. split; [reflexivity|].
  split.
  { unfold createPayment, Body. simpl. exact Hpay. }
  split; [reflexivity|].
  simpl. unfold lookup_order. simpl.
  rewrite find_update_order by reflexivity.
  unfold lookup_order in Hlookup. simpl in Hlookup. rewrite Hlookup. reflexivity.
Qed.

Lemma zero_price_order_paid_by_zero_payment_witness :
  exists m db1 order db2 res db3,
    createMenuItem 1 (MenuItemCreate.mk 1 "Water" None 0 true) scenario_db = (Ok m, db1) /\
    MenuItemRead.price_cents m = 0 /\
    createOrder 2 (OrderCreate.mk 1 [OrderItemCreate.mk (MenuItemRead.id m) 3]) db1 =
      (Ok order, db2) /\
    OrderRead.total_cents order = 0 /\
    OrderRead.status order = "created" /\
    createPayment 3 (PaymentCreate.mk (OrderRead.id order) 0 "mock") db2 = (Ok res, db3) /\
    PaymentResult.order_status res = "paid" /\
    option_map Order.status (lookup_order (db_tables db3) (OrderRead.id order)) =
      Some "paid".
Proof.
  apply (zero_price_order_paid_by_zero_payment 1 2 3 (MenuItemCreate.mk 1 "Water" None 0 true)
           3 "mock" scenario_db (Restaurant.mk 1 "R1" None true 0)).
  - reflexivity.
  - reflexivity.
  - reflexivity.
  - reflexivity.
  - lia.
  - reflexivity.
  - reflexivity.
  - reflexivity.
  - reflexivity.
  - reflexivity.
  - reflexivity.
Defined.

(** ** Every database the routes produce satisfies the row constraints *)

Lemma schema_ok_empty : schema_ok empty_database = true.
Proof. reflexivity. Qed.

(** Sequences that have moved on keep the constraints. *)
Lemma schema_ok_seqs_grow (t : Tables) (q q' : Sequences) :
  menu_items_id_seq q <= menu_items_id_seq q' ->
  orders_id_seq q <= orders_id_seq q' ->
  schema_ok (mkDatabase t q) = true -> schema_ok (mkDatabase t q') = true.
Proof.
  unfold schema_ok. simpl. intros Hmq Hoq H.
  apply andb_true_iff in H. destruct H as [H Hoi].
  apply andb_true_iff in H. destruct H as [H Ho].
  apply andb_true_iff in H. destruct H as [Hr Hm].
  rewrite Hr. simpl. repeat (apply andb_true_iff; split).
  - revert Hm. apply forallb_impl. intros m Hx.
    apply andb_true_iff in Hx. destruct Hx as [Hx H3].
    apply andb_true_iff in Hx. destruct Hx as [H1 H2]. rewrite H1, H3. simpl.
    rewrite andb_true_r. apply Z.ltb_lt in H2. apply Z.ltb_lt. lia.
  - revert Ho. apply forallb_impl. intros o Hx.
    apply andb_true_iff in Hx. destruct Hx as [Hx H3].
    apply andb_true_iff in Hx. destruct Hx as [H1 H2]. rewrite H1, H3. simpl.
    rewrite andb_true_r. apply Z.ltb_lt in H2. apply Z.ltb_lt. lia.
  - revert Hoi. apply forallb_impl. intros oi Hx.
    apply andb_true_iff in Hx. destruct Hx as [Hx H3]. rewrite Hx. simpl.
    apply Z.ltb_lt in H3. apply Z.ltb_lt. lia.
Qed.

Lemma schema_ok_next_order_id (t : Tables) (q : Sequences) :
  schema_ok (mkDatabase t q) = true -> schema_ok (mkDatabase t (next_order_id q)) = true.
Proof.
  apply schema_ok_seqs_grow; simpl; lia.
Qed.

(** What [createRestaurant] leaves: the database as it was, or one more
    restaurant under a 32-bit key. *)
Lemma createRestaurant_database (now : Z) (payload : RestaurantCreate.t) (db : Database) :
  snd (createRestaurant now payload db) = db \/
  int4 (restaurants_id_seq (db_seqs db)) = true /\
  exists name description,
    snd (createRestaurant now payload db) =
      mkDatabase
        (set_restaurants
           (fun rows => rows ++ [Restaurant.mk (restaurants_id_seq (db_seqs db)) name
                                   description (RestaurantCreate.is_active payload) now])
           (db_tables db))
        (next_restaurant_id (db_seqs db)).
Proof.
  unfold createRestaurant, Body.
  destruct (RestaurantCreate.validate payload).
  2:{ left. unfold get_db, raise. simpl. apply close_open_session. }
  destruct db as [[a b c d e] q]. simpl.
  unfold get_db, create_restaurant, bind, db_add_restaurant_flush, db_commit,
    db_refresh_restaurant, flush_session. simpl.
  destruct (int4 (restaurants_id_seq q)) eqn:Hk; [|left; reflexivity].
  destruct (varchar 200 (RestaurantCreate.name payload)) as [name|]; [|left; reflexivity].
  destruct (text (RestaurantCreate.description payload)) as [description|];
    [|left; reflexivity].
  right. split; [reflexivity|]. exists name, description.
  simpl. rewrite Hk.
  destruct (find _ _); reflexivity.
Qed.

Lemma schema_ok_createRestaurant (now : Z) (payload : RestaurantCreate.t) (db : Database) :
  schema_ok db = true -> schema_ok (snd (createRestaurant now payload db)) = true.
Proof.
  intros Hok.
  destruct (createRestaurant_database now payload db) as [-> | [Hk [name [description ->]]]];
    [exact Hok|].
  unfold schema_ok in *. simpl.
  rewrite forallb_app. simpl. rewrite Hk, andb_true_r.
  exact Hok.
Qed.

Lemma schema_ok_createMenuItem (now : Z) (payload : MenuItemCreate.t) (db : Database) :
  schema_ok db = true -> schema_ok (snd (createMenuItem now payload db)) = true.
Proof.
  intros Hok.
  destruct (MenuItemCreate.validate payload) eqn:Hv.
  2:{ rewrite create_menu_item_refused; [exact Hok | left; exact Hv]. }
  destruct (lookup_restaurant (db_tables db) (MenuItemCreate.restaurant_id payload))
    as [r|] eqn:Hr.
  2:{ rewrite create_menu_item_refused; [exact Hok | right; left; exact Hr]. }
  destruct (menu_item_fits payload db) eqn:Hfit.
  2:{ rewrite create_menu_item_refused; [exact Hok | right; right; exact Hfit]. }
  rewrite (create_menu_item_succeeds now payload db r Hok Hv Hr Hfit). simpl.
  apply schema_ok_new_menu_item.
  - exact Hok.
  - unfold MenuItemCreate.validate in Hv. apply Z.leb_le. exact Hv.
  - unfold menu_item_fits in Hfit. rewrite !andb_true_iff in Hfit. tauto.
Qed.

Lemma schema_ok_new_order (db : Database) (payload : OrderCreate.t) (now : Z) :
  schema_ok db = true ->
  Forall (fun l => 1 <= OrderItemCreate.quantity l) (OrderCreate.items payload) ->
  int4 (orders_id_seq (db_seqs db)) = true ->
  let t := db_tables db in
  let q := db_seqs db in
  schema_ok
    (mkDatabase
       (mkTables (restaurants t) (menu_items t)
          (orders t ++ [Order.mk (orders_id_seq q) (OrderCreate.restaurant_id payload)
                          "created" (lines_total t (OrderCreate.items payload)) now])
          (order_items t ++
             priced_rows t (orders_id_seq q) (order_items_id_seq q) (OrderCreate.items payload))
          (payments t))
       (mkSequences (restaurants_id_seq q) (menu_items_id_seq q) (orders_id_seq q + 1)
          (order_items_id_seq q + Z.of_nat (List.length (OrderCreate.items payload)))
          (payments_id_seq q))) = true.
Proof.
  intros Hok Hqty Hk t q.
  destruct (schema_ok_rows db Hok) as [_ [Hm [Ho Hoi]]].
  assert (Hprices : Forall (fun m => 0 <= MenuItem.price_cents m) (menu_items t)).
  { revert Hm. apply Forall_impl. intros m [H _]. exact H. }
  pose proof (lines_total_nonneg t _ Hprices Hqty) as Htotal.
  pose proof (priced_rows_valid t (orders_id_seq q) _ Hprices Hqty (order_items_id_seq q))
    as Hrows.
  assert (Hoid : Forall (fun oi => OrderItem.order_id oi = orders_id_seq q)
                   (priced_rows t (orders_id_seq q) (order_items_id_seq q)
                      (OrderCreate.items payload))).
  { apply priced_rows_order_id. }
  subst t q. unfold schema_ok in *. simpl.
  apply andb_true_iff in Hok. destruct Hok as [Hok Hoib].
  apply andb_true_iff in Hok. destruct Hok as [Hok Hob].
  apply andb_true_iff in Hok. destruct Hok as [Hrb Hmb].
  rewrite Hrb, Hmb. simpl.
  rewrite !forallb_app. cbn -[int4 Z.leb Z.ltb].
  repeat (apply andb_true_iff; split).
  - revert Hob. apply forallb_impl. intros o Hx.
    apply andb_true_iff in Hx. destruct Hx as [Hx H3].
    apply andb_true_iff in Hx. destruct Hx as [H1 H2]. rewrite H1, H3. simpl.
    rewrite andb_true_r. apply Z.ltb_lt in H2. apply Z.ltb_lt. lia.
  - apply Z.leb_le. exact Htotal.
  - apply Z.ltb_lt. lia.
  - unfold int4 in Hk. apply andb_true_iff in Hk. tauto.
  - unfold int4 in Hk. apply andb_true_iff in Hk. tauto.
  - reflexivity.
  - revert Hoib. apply forallb_impl. intros oi Hx.
    apply andb_true_iff in Hx. destruct Hx as [H1 H2]. rewrite H1. simpl.
    apply Z.ltb_lt in H2. apply Z.ltb_lt. lia.
  - apply forallb_forall. intros oi Hin.
    rewrite Forall_forall in Hrows, Hoid.
    destruct (Hrows oi Hin) as [H1 H2]. pose proof (Hoid oi Hin) as H3.
    apply Z.leb_le in H1, H2. rewrite H1, H2. simpl. apply Z.ltb_lt. lia.
Qed.

Lemma line_passes_dec (t : Tables) (rid : Z) (l : OrderItemCreate.t) :
  line_passes t rid l \/ ~ line_passes t rid l.
Proof.
  destruct (line_passes_or_fails t rid l) as [H|H]; [left; exact H|].
  right. intros [m [Hm [Hr Ha]]].
  destruct H as [[Hn | [m' [Hm' Hr']]] | [m' [Hm' [_ Ha']]]]; congruence.
Qed.

Lemma schema_ok_createOrder (now : Z) (payload : OrderCreate.t) (db : Database) :
  schema_ok db = true -> schema_ok (snd (createOrder now payload db)) = true.
Proof.
  intros Hok. unfold createOrder, Body.
  destruct (OrderCreate.validate payload) eqn:Hv.
  2:{ unfold get_db, raise. simpl. rewrite close_open_session. exact Hok. }
  destruct (validate_quantities payload Hv) as [_ Hqty].
  destruct (Forall_or_not (line_passes (db_tables db) (OrderCreate.restaurant_id payload))
              (OrderCreate.items payload) (line_passes_dec _ _)) as [Hall | Hnot].
  - destruct (lookup_restaurant (db_tables db) (OrderCreate.restaurant_id payload))
      as [r|] eqn:Hr.
    + destruct (order_fits payload db) eqn:Hfit.
      * rewrite (create_order_succeeds now payload db r Hok Hr Hall Hqty Hfit). simpl.
        apply schema_ok_new_order; try assumption.
        unfold order_fits in Hfit. rewrite !andb_true_iff in Hfit. tauto.
      * destruct (create_order_store_refuses now payload db r Hok Hr Hall Hfit)
          as [q' [E Hq]].
        rewrite E. simpl. destruct db as [t q]. simpl in *.
        destruct Hq as [-> | ->]; [exact Hok | apply schema_ok_next_order_id; exact Hok].
    + destruct (int4 (OrderCreate.restaurant_id payload)) eqn:Hi.
      * rewrite (create_order_restaurant_missing now payload db Hi Hr). exact Hok.
      * rewrite (create_order_restaurant_out_of_range now payload db Hi). exact Hok.
  - destruct (create_order_refused now payload db Hnot) as [e [q [Eq Hq]]].
    rewrite Eq. simpl. destruct db as [t q0]. simpl in *.
    destruct Hq as [-> | ->]; [exact Hok | apply schema_ok_next_order_id; exact Hok].
Qed.

Lemma schema_ok_updateDeliveryStatus (now order_id : Z) (payload : DeliveryUpdate.t)
    (db : Database) :
  schema_ok db = true ->
  schema_ok (snd (updateDeliveryStatus now order_id payload db)) = true.
Proof.
  intros Hok.
  destruct (is_valid_status (DeliveryUpdate.status payload)) eqn:Hv.
  - apply is_valid_status_In in Hv.
    destruct (lookup_order (db_tables db) order_id) as [o|] eqn:Hf.
    + rewrite (update_delivery_status_succeeds now order_id payload db o Hok Hv Hf).
      apply schema_ok_update_status. exact Hok.
    + destruct (int4 order_id) eqn:Hi.
      * rewrite (update_delivery_status_missing now order_id payload db Hv Hi Hf). exact Hok.
      * rewrite (update_delivery_status_out_of_range now order_id payload db Hv Hi).
        exact Hok.
  - rewrite update_delivery_status_refused; [exact Hok|].
    intros Hin. apply is_valid_status_In in Hin. congruence.
Qed.

Lemma schema_ok_createPayment (now : Z) (payload : PaymentCreate.t) (db : Database) :
  schema_ok db = true -> schema_ok (snd (createPayment now payload db)) = true.
Proof.
  intros Hok. unfold createPayment, Body.
  destruct (PaymentCreate.validate payload).
  2:{ unfold get_db, raise. simpl. rewrite close_open_session. exact Hok. }
  destruct (lookup_order (db_tables db) (PaymentCreate.order_id payload)) as [o|] eqn:Hf.
  - destruct (payment_fits payload db) eqn:Hfit.
    + rewrite (create_payment_recorded now payload db o Hf Hfit). simpl.
      unfold schema_ok in *. simpl.
      destruct (PaymentCreate.amount_cents payload >=? Order.total_cents o).
      * rewrite forallb_update_order by reflexivity. exact Hok.
      * exact Hok.
    + rewrite (create_payment_refused now payload db o Hf Hfit). exact Hok.
  - destruct (int4 (PaymentCreate.order_id payload)) eqn:Hi.
    + rewrite (create_payment_missing now payload db Hi Hf). exact Hok.
    + rewrite (create_payment_out_of_range now payload db Hi). exact Hok.
Qed.

(** The constraints hold in every database the routes can produce. *)
Lemma reachable_schema_ok (db : Database) : reachable db -> schema_ok db = true.
Proof.
  induction 1.
  - apply schema_ok_empty.
  - apply schema_ok_createRestaurant. assumption.
  - apply schema_ok_createMenuItem. assumption.
  - apply schema_ok_createOrder. assumption.
  - apply schema_ok_updateDeliveryStatus. assumption.
  - apply schema_ok_createPayment. assumption.
Qed.
